(** * backend/app.py: the interview back end, embedded and verified

    The development follows the layout of [backend/app.py]:

    - [PyStr]: the [str] methods the program calls ([strip], [split],
      [lower], [title], [in], slicing);
    - [Re]: the four [re.search] patterns of the program, run by a
      backtracking matcher with the priorities of Python's [re], and the
      matcher's correctness against a declarative reading of the patterns;
    - [PyFloat]: binary64 arithmetic as [sum], [/], [>=] and [round] use it;
    - the program itself, function by function: the language model is an
      oracle that a computation may call, the two PDF libraries are data
      that say which of their calls return and which raise, and
      [json.loads] and [json.dumps] are parameters ([JsonRef] is a JSON
      reader to run the program on given texts);
    - the vocabulary of the specification, and the properties.

    Characters are the code points U+0000..U+00FF (one [ascii] each); texts
    with code points above U+00FF are outside the model. *)

From Stdlib Require Import Bool Arith ZArith QArith Lia List Permutation.
From Stdlib Require Import Ascii String DecimalString SpecFloat.
Import ListNotations.

Set Warnings "-register-all".

Local Close Scope Q_scope.
Local Open Scope nat_scope.
Local Open Scope list_scope.
Local Open Scope string_scope.

(* ================================================================== *)
(** ** Python [str] methods *)

Module PyStr.

Definition code (c : ascii) : nat := nat_of_ascii c.

Definition between (lo hi : nat) (c : ascii) : bool :=
  ((lo <=? code c) && (code c <=? hi))%nat.

(** [str.isspace] on one character, as [strip] and [split] use it:
    U+0009..U+000D, U+001C..U+0020, U+0085 and U+00A0. *)
Definition isspace (c : ascii) : bool :=
  between 9 13 c || between 28 32 c || (code c =? 133)%nat || (code c =? 160)%nat.

Definition isdigit09 (c : ascii) : bool := between 48 57 c.

Definition isupper_ascii (c : ascii) : bool := between 65 90 c.
Definition islower_ascii (c : ascii) : bool := between 97 122 c.

(** [str.isalnum] on one character below U+0100. *)
Definition isalnum (c : ascii) : bool :=
  isdigit09 c || isupper_ascii c || islower_ascii c
  || (code c =? 170)%nat || between 178 179 c || (code c =? 181)%nat
  || between 185 186 c || between 188 190 c
  || between 192 214 c || between 216 246 c || between 248 255 c.

(** [\w] of a [str] pattern. *)
Definition isword (c : ascii) : bool := isalnum c || (code c =? 95)%nat.

(** [str.lower] on one character below U+0100: A-Z and the upper case
    letters U+00C0..U+00DE (U+00D7 is the multiplication sign). *)
Definition lower_char (c : ascii) : ascii :=
  if isupper_ascii c || (between 192 222 c && negb (code c =? 215)%nat)
  then ascii_of_nat (code c + 32) else c.

Fixpoint lower (s : string) : string :=
  match s with
  | EmptyString => EmptyString
  | String c s' => String (lower_char c) (lower s')
  end.

Definition upper_ascii (c : ascii) : ascii :=
  if islower_ascii c then ascii_of_nat (code c - 32) else c.

Definition lower_ascii (c : ascii) : ascii :=
  if isupper_ascii c then ascii_of_nat (code c + 32) else c.

(** [str.title] on ASCII text (the program applies it to the ten ASCII
    keywords of [skills_list] only): a letter that follows a non-letter
    is upper-cased, every other letter lower-cased. *)
Fixpoint title_from (prev_cased : bool) (s : string) : string :=
  match s with
  | EmptyString => EmptyString
  | String c s' =>
      let cased := isupper_ascii c || islower_ascii c in
      String (if prev_cased then lower_ascii c else upper_ascii c)
             (title_from cased s')
  end.

Definition title (s : string) : string := title_from false s.

Fixpoint lstrip (s : string) : string :=
  match s with
  | EmptyString => EmptyString
  | String c s' => if isspace c then lstrip s' else s
  end.

Fixpoint rstrip (s : string) : string :=
  match s with
  | EmptyString => EmptyString
  | String c s' =>
      match rstrip s' with
      | EmptyString => if isspace c then EmptyString else String c EmptyString
      | r => String c r
      end
  end.

Definition strip (s : string) : string := rstrip (lstrip s).

(** Truth value of a [str]: non-empty. *)
Definition nonempty (s : string) : bool :=
  match s with EmptyString => false | _ => true end.

(** [s[:n]]  for [n >= 0]. *)
Fixpoint take (n : nat) (s : string) : string :=
  match n, s with
  | S n', String c s' => String c (take n' s')
  | _, _ => EmptyString
  end.

(** [needle in hay]. *)
Fixpoint contains (needle hay : string) : bool :=
  if prefix needle hay then true
  else match hay with
       | EmptyString => false
       | String _ hay' => contains needle hay'
       end.

(** [s.split(sep)] for a one-character separator: the pieces between
    the separators, empty pieces included. *)
Fixpoint split_char (sep : ascii) (s : string) : list string :=
  match s with
  | EmptyString => [EmptyString]
  | String c s' =>
      if Ascii.eqb c sep then EmptyString :: split_char sep s'
      else match split_char sep s' with
           | [] => [String c EmptyString]
           | p :: ps => String c p :: ps
           end
  end.

(** [s.split()]: the maximal runs of non-whitespace characters. *)
Fixpoint split_ws_from (cur : string) (s : string) : list string :=
  match s with
  | EmptyString =>
      match cur with EmptyString => [] | _ => [cur] end
  | String c s' =>
      if isspace c then
        match cur with
        | EmptyString => split_ws_from EmptyString s'
        | _ => cur :: split_ws_from EmptyString s'
        end
      else split_ws_from (cur ++ String c EmptyString) s'
  end.

Definition split_ws (s : string) : list string := split_ws_from EmptyString s.

(** [s.split(sep)[-1]] for a non-empty [sep]: what follows the last of
    the occurrences of [sep] found from left to right without overlap.
    [skip] counts the characters of an occurrence still to be passed. *)
Fixpoint last_piece_from (sep : string) (skip : nat) (cur : string)
         (s : string) : string :=
  match s with
  | EmptyString => cur
  | String c s' =>
      match skip with
      | S k => last_piece_from sep k cur s'
      | O =>
          if prefix sep s
          then last_piece_from sep (String.length sep - 1) EmptyString s'
          else last_piece_from sep 0 (cur ++ String c EmptyString) s'
      end
  end.

Definition last_piece (sep s : string) : string :=
  last_piece_from sep 0 EmptyString s.

(** [str(n)] of an [int]. *)
Definition of_int (n : Z) : string := NilZero.string_of_int (Z.to_int n).

(** The double quote and the line feed, for texts that hold them. *)
Definition dq : string := String (ascii_of_nat 34) EmptyString.
Definition nl : string := String (ascii_of_nat 10) EmptyString.
Definition quoted (s : string) : string := dq ++ s ++ dq.

End PyStr.


(* ================================================================== *)
(** ** The regular expressions of the program, and [re.search]

    The four patterns are sequences of atoms over character classes.
    The matcher backtracks with the priorities of Python's [re]: an
    optional or greedy atom first takes as much as it can, a lazy one as
    little as it can, and [search] tries the start positions from left
    to right. *)

Module Re.

Definition cls := ascii -> bool.

Inductive atom : Type :=
| Chr (c : cls)                           (* one character of the class *)
| Opt (c : cls)                           (* [c?] *)
| Rep (greedy : bool) (min : nat) (c : cls)  (* [c{min,}] or [c{min,}?] *)
| WordB.                                  (* [\b] *)

Definition regex := list atom.

Definition lit (ch : ascii) : cls := fun x => Ascii.eqb x ch.
Definition any : cls := fun _ => true.            (* [.] under re.DOTALL *)
Definition either (a b : cls) : cls := fun x => a x || b x.

(** [r'\{.*?\}'] and [r'\[.*?\]'], both with [re.DOTALL]. *)
Definition region_re (opening closing : ascii) : regex :=
  [Chr (lit opening); Rep false 0 any; Chr (lit closing)].
Definition obj_re : regex := region_re "{" "}".
Definition arr_re : regex := region_re "[" "]".

(** [r'\b[\w.-]+@[\w.-]+\.\w+\b'] *)
Definition addr_cls : cls := either PyStr.isword (either (lit ".") (lit "-")).
Definition email_re : regex :=
  [WordB; Rep true 1 addr_cls; Chr (lit "@"); Rep true 1 addr_cls;
   Chr (lit "."); Rep true 1 PyStr.isword; WordB].

(** [r'[\+\(]?[0-9][0-9 \-\(\)]{8,}'] *)
Definition phone_cls : cls :=
  either PyStr.isdigit09
    (either (lit " ") (either (lit "-") (either (lit "(") (lit ")")))).
Definition phone_re : regex :=
  [Opt (either (lit "+") (lit "(")); Chr PyStr.isdigit09; Rep true 8 phone_cls].

(** [\b]: exactly one of the characters around the position is a word
    character; the ends of the text count as non-word. *)
Definition word_before (prev : option ascii) : bool :=
  match prev with Some c => PyStr.isword c | None => false end.
Definition word_after (s : string) : bool :=
  match s with String c _ => PyStr.isword c | EmptyString => false end.
Definition boundary (prev : option ascii) (s : string) : bool :=
  xorb (word_before prev) (word_after s).

(** A continuation receives the character before the current position
    and the text from it on, and answers with the text left after the
    whole match, or [None] to make the matcher backtrack. *)
Definition cont := option ascii -> string -> option string.

Fixpoint rep_greedy (c : cls) (k : cont) (min : nat)
         (prev : option ascii) (s : string) {struct s} : option string :=
  let stop := match min with O => k prev s | S _ => None end in
  match s with
  | String x s' =>
      if c x then
        match rep_greedy c k (Nat.pred min) (Some x) s' with
        | Some rest => Some rest
        | None => stop
        end
      else stop
  | EmptyString => stop
  end.

Fixpoint rep_lazy (c : cls) (k : cont) (min : nat)
         (prev : option ascii) (s : string) {struct s} : option string :=
  let more :=
    match s with
    | String x s' => if c x then rep_lazy c k (Nat.pred min) (Some x) s' else None
    | EmptyString => None
    end in
  match min with
  | O => match k prev s with Some rest => Some rest | None => more end
  | S _ => more
  end.

Fixpoint exec (r : regex) (k : cont) {struct r} : cont :=
  match r with
  | [] => k
  | Chr c :: r' =>
      fun prev s =>
        match s with
        | String x s' => if c x then exec r' k (Some x) s' else None
        | EmptyString => None
        end
  | Opt c :: r' =>
      fun prev s =>
        let skip := exec r' k prev s in
        match s with
        | String x s' =>
            if c x then
              match exec r' k (Some x) s' with
              | Some rest => Some rest
              | None => skip
              end
            else skip
        | EmptyString => skip
        end
  | Rep true min c :: r' => rep_greedy c (exec r' k) min
  | Rep false min c :: r' => rep_lazy c (exec r' k) min
  | WordB :: r' =>
      fun prev s => if boundary prev s then exec r' k prev s else None
  end.

(** The match of [r] that starts exactly here, as the text left after it. *)
Definition match_here (r : regex) (prev : option ascii) (s : string)
  : option string :=
  exec r (fun _ rest => Some rest) prev s.

(** A match object: the text before the match and [m.group()]. *)
Record found := Found { before : string; group : string }.

Fixpoint search_from (r : regex) (prev : option ascii) (pre : string)
         (s : string) {struct s} : option found :=
  match match_here r prev s with
  | Some rest => Some (Found pre (PyStr.take (String.length s - String.length rest) s))
  | None =>
      match s with
      | String x s' => search_from r (Some x) (pre ++ String x EmptyString) s'
      | EmptyString => None
      end
  end.

(** [re.search(r, text)] *)
Definition search (r : regex) (text : string) : option found :=
  search_from r None EmptyString text.

(** *** What the patterns mean, without reference to the matcher

    [m_seq r prev w rest]: the word [w] is matched by [r] when the
    character before it is [prev] and the text after it is [rest]. *)

Fixpoint all_in (c : cls) (w : string) : bool :=
  match w with
  | EmptyString => true
  | String x w' => c x && all_in c w'
  end.

Fixpoint last_char (prev : option ascii) (w : string) : option ascii :=
  match w with
  | EmptyString => prev
  | String x w' => last_char (Some x) w'
  end.

Inductive m_atom : atom -> option ascii -> string -> string -> Prop :=
| M_chr c x prev rest :
    c x = true -> m_atom (Chr c) prev (String x EmptyString) rest
| M_opt_some c x prev rest :
    c x = true -> m_atom (Opt c) prev (String x EmptyString) rest
| M_opt_none c prev rest :
    m_atom (Opt c) prev EmptyString rest
| M_rep g min c w prev rest :
    (min <= String.length w)%nat -> all_in c w = true ->
    m_atom (Rep g min c) prev w rest
| M_wordb prev rest :
    boundary prev rest = true -> m_atom WordB prev EmptyString rest.

Inductive m_seq : regex -> option ascii -> string -> string -> Prop :=
| M_nil prev rest : m_seq [] prev EmptyString rest
| M_cons a r prev w1 w2 rest :
    m_atom a prev w1 (w2 ++ rest) ->
    m_seq r (last_char prev w1) w2 rest ->
    m_seq (a :: r) prev (w1 ++ w2) rest.

(** [text] holds a match of [r] that starts after [pre] and reads [w]. *)
Definition match_at (r : regex) (text pre w : string) : Prop :=
  exists post, text = pre ++ w ++ post /\ m_seq r (last_char None pre) w post.

Definition has_match (r : regex) (text : string) : Prop :=
  exists pre w, match_at r text pre w.

(** A match whose start no other match precedes. *)
Definition leftmost_match (r : regex) (text pre w : string) : Prop :=
  match_at r text pre w /\
  forall pre' w', match_at r text pre' w' ->
                  (String.length pre <= String.length pre')%nat.

End Re.

(* ================================================================== *)
(** ** Python [float]: IEEE 754 binary64

    Values are [spec_float]; [+] and [/] are the correctly rounded
    operations of the standard library's [SpecFloat] at precision 53.
    Comparison with an [int] and [round] are exact in Python, and are
    defined here on the exact rational value of the float. *)

Module PyFloat.

Definition prec : Z := 53.
Definition emax : Z := 1024.

Definition float := spec_float.

Definition is_inf (f : float) : bool :=
  match f with S754_infinity _ => true | _ => false end.

(** The integer [z] as an exact, not yet rounded, operand. *)
Definition raw_int (z : Z) : float :=
  match z with
  | Z0 => S754_zero false
  | Zpos p => S754_finite false p 0
  | Zneg p => S754_finite true p 0
  end.

(** [float(z)]: the nearest binary64 number, ties to even; an infinity
    where Python raises [OverflowError]. *)
Definition of_int (z : Z) : float := binary_normalize prec emax z 0 false.

Definition add (x y : float) : float := SFadd prec emax x y.
Definition div (x y : float) : float := SFdiv prec emax x y.

(** [a / b] on two [int]s: the exact quotient rounded once. *)
Definition int_div (a b : Z) : float := div (raw_int a) (raw_int b).

(** The exact value of a finite float (0 for the others). *)
Definition to_Q (f : float) : Q :=
  match f with
  | S754_finite s m e =>
      let v := if s then Zneg m else Zpos m in
      if (0 <=? e)%Z then inject_Z (v * 2 ^ e)
      else Qmake v (Z.to_pos (2 ^ (- e)))
  | _ => 0%Q
  end.

(** [f >= n] for an [int] [n]: false on a NaN, exact otherwise. *)
Definition ge_int (f : float) (n : Z) : bool :=
  match f with
  | S754_nan => false
  | S754_infinity s => negb s
  | S754_zero _ => (n <=? 0)%Z
  | S754_finite _ _ _ => Qle_bool (inject_Z n) (to_Q f)
  end.

(** The integer nearest to [n/d], ties to the even one. *)
Definition round_half_even (n : Z) (d : positive) : Z :=
  let q := (n / Zpos d)%Z in
  let r := (n mod Zpos d)%Z in
  match (2 * r ?= Zpos d)%Z with
  | Lt => q
  | Gt => (q + 1)%Z
  | Eq => if Z.even q then q else (q + 1)%Z
  end.

(** [round(f, nd)] for [nd >= 0]: the exact value of [f] is rounded to
    [nd] decimals, ties to even, and the decimal so obtained is read back
    as the nearest float; zeros, infinities and NaN are returned as they
    are, and the sign is kept when the result is zero. *)
Definition round_ndigits (f : float) (nd : nat) : float :=
  match f with
  | S754_finite s m e =>
      let scale := Z.pow 10 (Z.of_nat nd) in
      let k :=
        if (0 <=? e)%Z then (Zpos m * 2 ^ e * scale)%Z
        else round_half_even (Zpos m * scale) (Z.to_pos (2 ^ (- e))) in
      match k with
      | Zpos p => div (S754_finite s p 0) (raw_int scale)
      | _ => S754_zero s
      end
  | _ => f
  end.

End PyFloat.

(* ================================================================== *)
(** ** Python values, exceptions, and calls of the language model *)

(** The values that JSON texts and the program's dictionaries hold.  A
    [dict] keeps its items in insertion order; its keys are strings. *)
Inductive value : Type :=
| VNone
| VBool (b : bool)
| VInt (n : Z)
| VFloat (f : PyFloat.float)
| VStr (s : string)
| VList (items : list value)
| VDict (items : list (string * value)).

Definition dict := list (string * value).

(** [d.get(key)]: the value, or nothing where Python yields [None]. *)
Fixpoint dict_find (key : string) (d : dict) : option value :=
  match d with
  | [] => None
  | (k, v) :: d' => if String.eqb k key then Some v else dict_find key d'
  end.

Definition dict_get (key : string) (d : dict) : value :=
  match dict_find key d with Some v => v | None => VNone end.

(** [d[key] = v]: an existing key keeps its place, a new one goes last. *)
Fixpoint dict_set (key : string) (v : value) (d : dict) : dict :=
  match d with
  | [] => [(key, v)]
  | (k, w) :: d' =>
      if String.eqb k key then (k, v) :: d' else (k, w) :: dict_set key v d'
  end.

(** Truth value, as [if x:] and [x and y] take it. *)
Definition truthy (v : value) : bool :=
  match v with
  | VNone => false
  | VBool b => b
  | VInt n => negb (n =? 0)%Z
  | VFloat (S754_zero _) => false
  | VFloat _ => true
  | VStr s => PyStr.nonempty s
  | VList l => match l with [] => false | _ => true end
  | VDict d => match d with [] => false | _ => true end
  end.

Definition type_name (v : value) : string :=
  match v with
  | VNone => "NoneType"
  | VBool _ => "bool"
  | VInt _ => "int"
  | VFloat _ => "float"
  | VStr _ => "str"
  | VList _ => "list"
  | VDict _ => "dict"
  end.

Inductive exn_kind : Type :=
| ValueError | TypeError | KeyError | OverflowError | ZeroDivisionError.

(** An exception: its class and [str(e)] (the texts of CPython 3.11). *)
Record exn : Type := Exn { exn_class : exn_kind; exn_str : string }.

Inductive result (A : Type) : Type :=
| Ok (a : A)
| Raise (e : exn).
Arguments Ok {A} a.
Arguments Raise {A} e.

Definition rbind {A B} (r : result A) (f : A -> result B) : result B :=
  match r with
  | Ok a => f a
  | Raise e => Raise e
  end.


(** A computation that may call the language model: it returns, raises,
    or hands the tokenised prompt to [model.generate] with the sampling
    parameters and goes on with the decoded output. *)
Inductive prog (A : Type) : Type :=
| Return (a : A)
| Throw (e : exn)
| CallModel (formatted : string) (max_new_tokens : Z) (temperature : Q)
            (k : string -> prog A).
Arguments Return {A} a.
Arguments Throw {A} e.
Arguments CallModel {A} formatted max_new_tokens temperature k.

Fixpoint bind {A B} (p : prog A) (f : A -> prog B) : prog B :=
  match p with
  | Return a => f a
  | Throw e => Throw e
  | CallModel pr mt t k => CallModel pr mt t (fun out => bind (k out) f)
  end.

Notation "x <- p ;; q" := (bind p (fun x => q))
  (at level 61, p at next level, right associativity).

(** [try: p  except Exception as e: h(e)] *)
Fixpoint catch {A} (p : prog A) (h : exn -> prog A) : prog A :=
  match p with
  | Return a => Return a
  | Throw e => h e
  | CallModel pr mt t k => CallModel pr mt t (fun out => catch (k out) h)
  end.

(** A language model: the decoded output for a prompt and parameters. *)
Definition model := string -> Z -> Q -> string.

Fixpoint run {A} (m : model) (p : prog A) : result A :=
  match p with
  | Return a => Ok a
  | Throw e => Raise e
  | CallModel pr mt t k => run m (k (m pr mt t))
  end.

(** How many times the computation calls the model. *)
Fixpoint model_calls {A} (m : model) (p : prog A) : nat :=
  match p with
  | CallModel pr mt t k => S (model_calls m (k (m pr mt t)))
  | _ => O
  end.

(* ================================================================== *)
(** ** backend/app.py *)

Import PyStr.

(** [generate(prompt, max_tokens=800, temp=0.7)]: the prompt goes to the
    model inside the chat markers; of the decoded text, what follows the
    last assistant marker is kept, stripped. *)
Definition assistant_marker : string := "<|assistant|>".

Definition chat_format (prompt : string) : string :=
  "<|user|>" ++ nl ++ prompt ++ "<|end|>" ++ nl ++ assistant_marker ++ nl.

Definition after_marker (text : string) : string :=
  let text :=
    if contains assistant_marker text
    then strip (last_piece assistant_marker text)
    else text in
  strip text.

Definition generate (prompt : string) (max_tokens : Z) (temp : Q) : prog string :=
  let formatted := chat_format prompt in
  CallModel formatted max_tokens temp (fun text => Return (after_marker text)).

(** What [generate] returns when the model is [m]. *)
Definition reply (m : model) (prompt : string) (max_tokens : Z) (temp : Q) : string :=
  after_marker (m (chat_format prompt) max_tokens temp).

Definition default_max_tokens : Z := 800.
Definition default_temp : Q := (7 # 10)%Q.

(** A triple-quoted prompt, line by line: every line ends in a line feed. *)
Fixpoint unlines (ls : list string) : string :=
  match ls with
  | [] => EmptyString
  | l :: ls' => l ++ nl ++ unlines ls'
  end.

(** *** extract_text_from_pdf

    What the two PDF libraries do with the uploaded file is data of the
    model: every library call either returns or raises. *)

(** [fitz.open(...)]: the [get_text()] of each page ([None]: it raises),
    and whether [doc.close()] returns. *)
Record fitz_doc : Type :=
  { fitz_pages : list (option string); fitz_close_ok : bool }.

(** [page.extract_text()] of pdfplumber: it raises, or returns [None] or
    a [str]. *)
Inductive plumber_page : Type :=
| PlumberRaises
| PlumberNone
| PlumberText (t : string).

Record pdf_file : Type :=
  { seek_ok : bool;                          (* [pdf_file.seek(0)] returns *)
    fitz_open : option fitz_doc;             (* [None]: opening raises *)
    plumber_open : option (list plumber_page) }.

(** The body of a [try] block works on the local [text]; the flag tells
    whether it ran to its end ([true]) or raised ([false]).  Either way
    [text] keeps what was appended before. *)
Fixpoint fitz_loop (pages : list (option string)) (text : string) : string * bool :=
  match pages with
  | [] => (text, true)
  | Some t :: pages' => fitz_loop pages' (text ++ t)
  | None :: _ => (text, false)
  end.

Definition fitz_pass (f : pdf_file) (text : string) : string * bool :=
  if seek_ok f then
    match fitz_open f with
    | Some doc =>
        let '(text', completed) := fitz_loop (fitz_pages doc) text in
        (text', completed && fitz_close_ok doc)
    | None => (text, false)
    end
  else (text, false).

Fixpoint plumber_loop (pages : list plumber_page) (text : string) : string * bool :=
  match pages with
  | [] => (text, true)
  | PlumberText t :: pages' =>
      if PyStr.nonempty t then plumber_loop pages' (text ++ t ++ nl)
      else plumber_loop pages' text
  | PlumberNone :: pages' => plumber_loop pages' text
  | PlumberRaises :: _ => (text, false)
  end.

Definition plumber_pass (f : pdf_file) (text : string) : string * bool :=
  if seek_ok f then
    match plumber_open f with
    | Some pages => plumber_loop pages text
    | None => (text, false)
    end
  else (text, false).

(** [try: body  except: pass] *)
Definition try_pass (body : string -> string * bool) (text : string) : string :=
  fst (body text).

Definition extract_text_from_pdf (f : pdf_file) : string :=
  let text := EmptyString in
  let text := try_pass (fitz_pass f) text in
  let text := try_pass (plumber_pass f) text in
  strip text.

(** *** extract_resume_basic *)

Definition skills_list : list string :=
  ["python"; "java"; "javascript"; "react"; "sql"; "aws";
   "docker"; "machine learning"; "deep learning"; "nlp"].

(** [[l.strip() for l in text.split("\n") if l.strip()]] *)
Definition stripped_lines (text : string) : list string :=
  map strip (filter (fun l => PyStr.nonempty (strip l))
                    (split_char (ascii_of_nat 10) text)).

(** The [for line in lines[:5]] loop: the first line of at most four
    words, if there is one. *)
Definition name_line (text : string) : option string :=
  find (fun line => (List.length (split_ws line) <=? 4)%nat)
       (firstn 5 (stripped_lines text)).

Definition found_skills (text : string) : list string :=
  let text_lower := lower text in
  map title (filter (fun s => contains s text_lower) skills_list).

Definition extract_resume_basic (text : string) : value :=
  let data : dict :=
    [("name", VStr "Unknown"); ("email", VStr ""); ("phone", VStr "");
     ("skills", VList []); ("experience", VList []); ("projects", VList [])] in
  let data :=
    match Re.search Re.email_re text with
    | Some email => dict_set "email" (VStr (Re.group email)) data
    | None => data
    end in
  let data :=
    match Re.search Re.phone_re text with
    | Some phone => dict_set "phone" (VStr (Re.group phone)) data
    | None => data
    end in
  let data :=
    match name_line text with
    | Some line => dict_set "name" (VStr line) data
    | None => data
    end in
  let data := dict_set "skills" (VList (map VStr (found_skills text))) data in
  VDict data.

Notation "'let!' x ':=' r 'in' q" := (rbind r (fun x => q))
  (at level 10, x name, r at level 100, q at level 200).

(** *** final_report *)

Definition raise {A} (k : exn_kind) (msg : string) : result A := Raise (Exn k msg).

(** [e["total_score"]] *)
Definition total_score_of (e : value) : result value :=
  match e with
  | VDict d =>
      match dict_find "total_score" d with
      | Some v => Ok v
      | None => raise KeyError "'total_score'"
      end
  | VList _ => raise TypeError "list indices must be integers or slices, not str"
  | VStr _ => raise TypeError "string indices must be integers, not 'str'"
  | _ => raise TypeError ("'" ++ type_name e ++ "' object is not subscriptable")
  end.

(** [float(n)] of an [int] *)
Definition to_float (n : Z) : result PyFloat.float :=
  let f := PyFloat.of_int n in
  if PyFloat.is_inf f then raise OverflowError "int too large to convert to float"
  else Ok f.

(** [acc + v] where [acc] is a running sum, an [int] or a [float]. *)
Definition add_number (acc v : value) : result value :=
  match acc, v with
  | VInt a, VInt b => Ok (VInt (a + b))
  | VInt a, VBool b => Ok (VInt (a + Z.b2z b))
  | VInt a, VFloat g => let! f := to_float a in Ok (VFloat (PyFloat.add f g))
  | VFloat f, VInt b => let! g := to_float b in Ok (VFloat (PyFloat.add f g))
  | VFloat f, VBool b => Ok (VFloat (PyFloat.add f (PyFloat.of_int (Z.b2z b))))
  | VFloat f, VFloat g => Ok (VFloat (PyFloat.add f g))
  | _, _ =>
      raise TypeError ("unsupported operand type(s) for +: '" ++ type_name acc
                       ++ "' and '" ++ type_name v ++ "'")
  end.

(** [sum(e["total_score"] for e in evaluations)] from the running sum
    [acc] on: the items are read and added one by one, from the left. *)
Fixpoint sum_total_scores (acc : value) (evaluations : list value) : result value :=
  match evaluations with
  | [] => Ok acc
  | e :: rest =>
      let! v := total_score_of e in
      let! acc' := add_number acc v in
      sum_total_scores acc' rest
  end.

(** [total / n] where [n] is an [int]. *)
Definition truediv (total : value) (n : Z) : result PyFloat.float :=
  match total with
  | VInt a =>
      if (n =? 0)%Z then raise ZeroDivisionError "division by zero"
      else
        let q := PyFloat.int_div a n in
        if PyFloat.is_inf q
        then raise OverflowError "integer division result too large for a float"
        else Ok q
  | VFloat f =>
      let! g := to_float n in
      if (n =? 0)%Z then raise ZeroDivisionError "float division by zero"
      else Ok (PyFloat.div f g)
  | _ =>
      raise TypeError ("unsupported operand type(s) for /: '" ++ type_name total
                       ++ "' and 'int'")
  end.

Definition performance_level (avg : PyFloat.float) : string :=
  if PyFloat.ge_int avg 80 then "Excellent"
  else if PyFloat.ge_int avg 60 then "Good"
  else "Average".

Definition final_report (evaluations : list value) : result value :=
  match evaluations with
  | [] => Ok (VDict [("overall_score", VInt 0);
                     ("performance_level", VStr "No answers")])
  | _ =>
      let n := Z.of_nat (List.length evaluations) in
      let! total := sum_total_scores (VInt 0) evaluations in
      let! avg := truediv total n in
      let level := performance_level avg in
      Ok (VDict [("overall_score", VFloat (PyFloat.round_ndigits avg 2));
                 ("performance_level", VStr level);
                 ("total_questions", VInt n)])
  end.

(** *** gen_followup *)

Definition followup_prompt (question answer : string) : string :=
  unlines [""; "Generate ONE follow-up question."; "";
           "Question: " ++ question; "Answer: " ++ answer; "";
           "Only the question:"].

Definition gen_followup (question answer : string) : prog string :=
  if (String.length (strip answer) <? 10)%nat
  then Return "Could you explain more?"
  else generate (followup_prompt question answer) 100 default_temp.

(** *** The functions that read JSON

    [json.loads] and [json.dumps] belong to Python's library: the
    program is embedded over any reader ([None]: it raises) and any
    printer. *)

Section WithJson.

Variable json_loads : string -> option value.
Variable json_dumps_indent2 : value -> string.

Definition extract_json (text : string) : value :=
  if negb (PyStr.nonempty text) then VNone
  else
    let from_array :=
      match Re.search Re.arr_re text with
      | Some arr =>
          match json_loads (Re.group arr) with
          | Some v => v
          | None => VNone
          end
      | None => VNone
      end in
    match Re.search Re.obj_re text with
    | Some obj =>
        match json_loads (Re.group obj) with
        | Some v => v
        | None => from_array
        end
    | None => from_array
    end.

(** **** extract_resume *)

Definition resume_prompt (text : string) : string :=
  unlines [""; "Extract resume info and return ONLY JSON."; "";
           take 2000 text; "";
           "Format:";
           "{";
           "  " ++ quoted "name" ++ ": " ++ quoted "" ++ ",";
           "  " ++ quoted "email" ++ ": " ++ quoted "" ++ ",";
           "  " ++ quoted "phone" ++ ": " ++ quoted "" ++ ",";
           "  " ++ quoted "skills" ++ ": [],";
           "  " ++ quoted "experience" ++ ": [],";
           "  " ++ quoted "projects" ++ ": []";
           "}";
           "JSON:"].

Definition extraction_error : exn :=
  Exn ValueError "Could not extract text from resume".

Definition extract_resume (f : pdf_file) : prog value :=
  let text := extract_text_from_pdf f in
  if negb (PyStr.nonempty text) || (String.length text <? 30)%nat
  then Throw extraction_error
  else
    response <- generate (resume_prompt text) default_max_tokens (1 # 10)%Q ;;
    match extract_json response with
    | VDict d =>
        if truthy (dict_get "name" d) then Return (VDict d)
        else Return (extract_resume_basic text)
    | _ => Return (extract_resume_basic text)
    end.

(** **** gen_questions *)

Definition questions_prompt (resume : value) (num : Z) : string :=
  unlines [""; "Generate exactly " ++ of_int num
                 ++ " interview questions based on this resume."; "";
           json_dumps_indent2 resume; "";
           "Return ONLY JSON array:";
           "[";
           "  {" ++ quoted "id" ++ ":1," ++ quoted "question" ++ ":" ++ quoted ""
                 ++ "," ++ quoted "focus" ++ ":" ++ quoted "" ++ "}";
           "]";
           "JSON:"].

(** The loop [for i, q in enumerate(questions): q["id"] = i + 1], from
    index [i] on; it stops at the first item that takes no item
    assignment. *)
Fixpoint assign_ids (i : Z) (questions : list value) : result (list value) :=
  match questions with
  | [] => Ok []
  | q :: rest =>
      let! q' :=
        match q with
        | VDict d => Ok (VDict (dict_set "id" (VInt (i + 1)) d))
        | VList _ => raise TypeError "list indices must be integers or slices, not str"
        | _ => raise TypeError ("'" ++ type_name q
                                ++ "' object does not support item assignment")
        end in
      let! rest' := assign_ids (i + 1) rest in
      Ok (q' :: rest')
  end.

(** [l[:num]]: a negative [num] counts from the end. *)
Definition slice_to {A} (num : Z) (l : list A) : list A :=
  if (0 <=? num)%Z then firstn (Z.to_nat num) l
  else firstn (List.length l - Z.to_nat (- num)) l.

Definition lift {A} (r : result A) : prog A :=
  match r with
  | Ok a => Return a
  | Raise e => Throw e
  end.

Definition gen_questions (resume : value) (num : Z) : prog value :=
  response <- generate (questions_prompt resume num) default_max_tokens default_temp ;;
  match extract_json response with
  | VList questions =>
      questions' <- lift (assign_ids 0 questions) ;;
      Return (VList (slice_to num questions'))
  | _ => Return (VList [])
  end.

(** **** evaluate *)

Definition evaluate_prompt (question answer : string) : string :=
  unlines [""; "Evaluate the answer and return JSON."; "";
           "Question: " ++ question; "Answer: " ++ answer; "";
           "{";
           "  " ++ quoted "technical_accuracy" ++ ": 0,";
           "  " ++ quoted "completeness" ++ ": 0,";
           "  " ++ quoted "practical_knowledge" ++ ": 0,";
           "  " ++ quoted "communication" ++ ": 0,";
           "  " ++ quoted "total_score" ++ ": 0,";
           "  " ++ quoted "feedback" ++ ": " ++ quoted "";
           "}";
           "JSON:"].

Definition default_evaluation : value :=
  VDict [("technical_accuracy", VInt 10); ("completeness", VInt 10);
         ("practical_knowledge", VInt 10); ("communication", VInt 10);
         ("total_score", VInt 40); ("feedback", VStr "Answer evaluated.")].

Definition evaluate (question answer : string) : prog value :=
  response <- generate (evaluate_prompt question answer) default_max_tokens (2 # 10)%Q ;;
  match extract_json response with
  | VDict d => Return (VDict d)
  | _ => Return default_evaluation
  end.

(** **** The endpoints *)

(** What the handler hands to the framework: a status and a JSON body
    (a returned [dict] is sent with status 200). *)
Record http_response : Type := { status_code : Z; content : value }.

(** The uploaded bytes, as the two libraries read them. *)
Record pdf_bytes : Type :=
  { as_fitz : option fitz_doc; as_plumber : option (list plumber_page) }.

(** [io.BytesIO(pdf_bytes)]: [seek(0)] always returns. *)
Definition BytesIO (b : pdf_bytes) : pdf_file :=
  {| seek_ok := true; fitz_open := as_fitz b; plumber_open := as_plumber b |}.

Definition upload_resume (file : pdf_bytes) : prog http_response :=
  catch
    (let pdf_file := BytesIO file in
     resume <- extract_resume pdf_file ;;
     Return {| status_code := 200; content := VDict [("resume", resume)] |})
    (fun e =>
       Return {| status_code := 500; content := VDict [("error", VStr (exn_str e))] |}).

Definition generate_questions_api (resume : value) : prog value :=
  questions <- gen_questions resume 5 ;;
  Return (VDict [("questions", questions)]).

Definition answer_api (question answer : string) : prog value :=
  followup <- gen_followup question answer ;;
  evaluation <- evaluate question answer ;;
  Return (VDict [("followup", VStr followup); ("evaluation", evaluation)]).

Definition final_report_api (evaluations : list value) : result value :=
  final_report evaluations.

End WithJson.

(* ================================================================== *)
(** ** A JSON reader

    [JsonRef.loads] reads JSON texts as Python's [json.loads] does
    (objects to [dict]s where a repeated key keeps its first place and
    its last value, numbers with a fraction or an exponent to [float]s,
    [NaN] and [Infinity] accepted, control characters in strings
    refused, nothing but white space after the value).  It instantiates
    the reader of the program where a property is evaluated on a given
    text.  An escape [\uXXXX] above U+00FF is outside the model and is
    refused here; Python's limits on the number of digits and on the
    nesting depth are not modelled. *)

Module JsonRef.

Definition is_ws (c : ascii) : bool :=
  (code c =? 32)%nat || (code c =? 9)%nat || (code c =? 10)%nat || (code c =? 13)%nat.

Fixpoint skip_ws (s : string) : string :=
  match s with
  | String c s' => if is_ws c then skip_ws s' else s
  | EmptyString => EmptyString
  end.

(** [eat w s]: [s] without its prefix [w], if it starts with [w]. *)
Fixpoint eat (w s : string) : option string :=
  match w, s with
  | EmptyString, _ => Some s
  | String a w', String b s' => if Ascii.eqb a b then eat w' s' else None
  | String _ _, EmptyString => None
  end.

Definition hex_digit (c : ascii) : option nat :=
  if isdigit09 c then Some (code c - 48)
  else if between 97 102 c then Some (code c - 87)
  else if between 65 70 c then Some (code c - 55)
  else None.

Definition unescape (c : ascii) : option ascii :=
  let n := code c in
  if (n =? 34)%nat then Some (ascii_of_nat 34)          (* quote *)
  else if (n =? 92)%nat then Some (ascii_of_nat 92)     (* backslash *)
  else if (n =? 47)%nat then Some (ascii_of_nat 47)     (* slash *)
  else if (n =? 98)%nat then Some (ascii_of_nat 8)      (* b *)
  else if (n =? 102)%nat then Some (ascii_of_nat 12)    (* f *)
  else if (n =? 110)%nat then Some (ascii_of_nat 10)    (* n *)
  else if (n =? 114)%nat then Some (ascii_of_nat 13)    (* r *)
  else if (n =? 116)%nat then Some (ascii_of_nat 9)     (* t *)
  else None.

Definition cons_char (c : ascii) (r : option (string * string))
  : option (string * string) :=
  match r with
  | Some (body, rest) => Some (String c body, rest)
  | None => None
  end.

(** The characters of a string literal after its opening quote, and the
    text after its closing quote. *)
Fixpoint scan_string (s : string) : option (string * string) :=
  match s with
  | EmptyString => None
  | String c s' =>
      if (code c =? 34)%nat then Some (EmptyString, s')
      else if (code c =? 92)%nat then
        match s' with
        | String e s2 =>
            match unescape e with
            | Some x => cons_char x (scan_string s2)
            | None =>
                if (code e =? 117)%nat then
                  match s2 with
                  | String h1 (String h2 (String h3 (String h4 s6))) =>
                      match hex_digit h1, hex_digit h2, hex_digit h3, hex_digit h4 with
                      | Some a, Some b, Some c', Some d =>
                          let u := (((a * 16 + b) * 16 + c') * 16 + d)%nat in
                          if (u <? 256)%nat
                          then cons_char (ascii_of_nat u) (scan_string s6)
                          else None
                      | _, _, _, _ => None
                      end
                  | _ => None
                  end
                else None
            end
        | EmptyString => None
        end
      else if (code c <? 32)%nat then None
      else cons_char c (scan_string s')
  end.

(** The longest prefix of decimal digits, and the rest. *)
Fixpoint digits (s : string) : string * string :=
  match s with
  | String c s' =>
      if isdigit09 c then let '(d, r) := digits s' in (String c d, r)
      else (EmptyString, s)
  | EmptyString => (EmptyString, EmptyString)
  end.

Fixpoint int_of_digits (acc : Z) (d : string) : Z :=
  match d with
  | String c d' => int_of_digits (acc * 10 + Z.of_nat (code c - 48)) d'
  | EmptyString => acc
  end.

(** The float nearest to [m * 10^e10], with the sign [neg]. *)
Definition decimal_to_float (neg : bool) (m : Z) (e10 : Z) : PyFloat.float :=
  match m with
  | Zpos p =>
      if (0 <=? e10)%Z
      then binary_normalize PyFloat.prec PyFloat.emax
             ((if neg then Zneg p else Zpos p) * 10 ^ e10) 0 false
      else PyFloat.div (S754_finite neg p 0) (PyFloat.raw_int (10 ^ (- e10)))
  | _ => S754_zero neg
  end.

(** A number: an optional minus, the integer part (a single 0, or digits
    that do not start with 0), an optional fraction (a point and digits)
    and an optional exponent (e or E, an optional sign, digits). *)
Definition parse_number (s : string) : option (value * string) :=
  let '(neg, s1) :=
    match s with
    | String c r => if (code c =? 45)%nat then (true, r) else (false, s)
    | EmptyString => (false, s)
    end in
  let '(int_part, s2) :=
    match s1 with
    | String c r =>
        if (code c =? 48)%nat then (String c EmptyString, r) else digits s1
    | EmptyString => (EmptyString, s1)
    end in
  match int_part with
  | EmptyString => None
  | _ =>
      let '(frac, s3) :=
        match s2 with
        | String c r =>
            if (code c =? 46)%nat then
              match digits r with
              | (EmptyString, _) => (None, s2)
              | (d, r') => (Some d, r')
              end
            else (None, s2)
        | EmptyString => (None, s2)
        end in
      let '(expo, s4) :=
        match s3 with
        | String c r =>
            if (code c =? 101)%nat || (code c =? 69)%nat then
              let '(eneg, r1) :=
                match r with
                | String sg r' =>
                    if (code sg =? 45)%nat then (true, r')
                    else if (code sg =? 43)%nat then (false, r')
                    else (false, r)
                | EmptyString => (false, r)
                end in
              match digits r1 with
              | (EmptyString, _) => (None, s3)
              | (d, r') =>
                  (Some (if eneg then (- int_of_digits 0 d)%Z else int_of_digits 0 d), r')
              end
            else (None, s3)
        | EmptyString => (None, s3)
        end in
      match frac, expo with
      | None, None =>
          let n := int_of_digits 0 int_part in
          Some (VInt (if neg then (- n)%Z else n), s4)
      | _, _ =>
          let f := match frac with Some d => d | None => EmptyString end in
          let e := match expo with Some e => e | None => 0%Z end in
          Some (VFloat (decimal_to_float neg (int_of_digits 0 (int_part ++ f))
                          (e - Z.of_nat (String.length f))), s4)
      end
  end.

(** [dict(pairs)] *)
Definition dict_of_pairs (pairs : list (string * value)) : dict :=
  fold_left (fun d kv => dict_set (fst kv) (snd kv) d) pairs [].

Inductive goal : Type :=
| GValue      (* a value *)
| GElements   (* the items of an array, from the first on, and its bracket *)
| GMembers.   (* the members of an object, from a key on, and its brace *)

Definition literal (w : string) (v : value) (s : string) : option (value * string) :=
  match eat w s with
  | Some rest => Some (v, rest)
  | None => None
  end.

Fixpoint parse (fuel : nat) (g : goal) (s : string) : option (value * string) :=
  match fuel with
  | O => None
  | S fuel' =>
      match g with
      | GValue =>
          match s with
          | EmptyString => None
          | String c s' =>
              let n := code c in
              if (n =? 34)%nat then
                match scan_string s' with
                | Some (body, rest) => Some (VStr body, rest)
                | None => None
                end
              else if (n =? 123)%nat then
                match skip_ws s' with
                | String c1 r =>
                    if (code c1 =? 125)%nat then Some (VDict [], r)
                    else
                      match parse fuel' GMembers (String c1 r) with
                      | Some (VDict pairs, rest) => Some (VDict (dict_of_pairs pairs), rest)
                      | _ => None
                      end
                | EmptyString => None
                end
              else if (n =? 91)%nat then
                match skip_ws s' with
                | String c1 r =>
                    if (code c1 =? 93)%nat then Some (VList [], r)
                    else parse fuel' GElements (String c1 r)
                | EmptyString => None
                end
              else if (n =? 110)%nat then literal "null" VNone s
              else if (n =? 116)%nat then literal "true" (VBool true) s
              else if (n =? 102)%nat then literal "false" (VBool false) s
              else if (n =? 78)%nat then literal "NaN" (VFloat S754_nan) s
              else if (n =? 73)%nat then literal "Infinity" (VFloat (S754_infinity false)) s
              else
                match parse_number s with
                | Some r => Some r
                | None => literal "-Infinity" (VFloat (S754_infinity true)) s
                end
          end
      | GElements =>
          match parse fuel' GValue s with
          | Some (v, r) =>
              match skip_ws r with
              | String c r1 =>
                  if (code c =? 93)%nat then Some (VList [v], r1)
                  else if (code c =? 44)%nat then
                    match parse fuel' GElements (skip_ws r1) with
                    | Some (VList vs, r2) => Some (VList (v :: vs), r2)
                    | _ => None
                    end
                  else None
              | EmptyString => None
              end
          | None => None
          end
      | GMembers =>
          match s with
          | String q s1 =>
              if (code q =? 34)%nat then
                match scan_string s1 with
                | Some (key, r) =>
                    match skip_ws r with
                    | String colon r1 =>
                        if (code colon =? 58)%nat then
                          match parse fuel' GValue (skip_ws r1) with
                          | Some (v, r2) =>
                              match skip_ws r2 with
                              | String c r3 =>
                                  if (code c =? 125)%nat then Some (VDict [(key, v)], r3)
                                  else if (code c =? 44)%nat then
                                    match parse fuel' GMembers (skip_ws r3) with
                                    | Some (VDict kvs, r4) => Some (VDict ((key, v) :: kvs), r4)
                                    | _ => None
                                    end
                                  else None
                              | EmptyString => None
                              end
                          | None => None
                          end
                        else None
                    | EmptyString => None
                    end
                | None => None
                end
              else None
          | EmptyString => None
          end
      end
  end.

Definition loads (s : string) : option value :=
  match parse (2 * String.length s + 2) GValue (skip_ws s) with
  | Some (v, rest) =>
      match skip_ws rest with
      | EmptyString => Some v
      | _ => None
      end
  | None => None
  end.

End JsonRef.

(* ================================================================== *)
(** ** Vocabulary of the specification

    The notions the specification speaks in, defined apart from the
    program so that the program can be compared with them. *)

(** A field of a returned object. *)
Definition field (key : string) (v : value) : value :=
  match v with
  | VDict d => dict_get key d
  | _ => VNone
  end.

(** The character [x] does not occur in [s]. *)
Definition absent (x : ascii) (s : string) : Prop :=
  Re.all_in (fun y => negb (Ascii.eqb y x)) s = true.

(** The text up to and including the first [closing], and the text
    after it. *)
Fixpoint up_to (closing : ascii) (s : string) : option string :=
  match s with
  | EmptyString => None
  | String x s' =>
      if Ascii.eqb x closing then Some (String x EmptyString)
      else option_map (String x) (up_to closing s')
  end.

Fixpoint after_first (closing : ascii) (s : string) : option string :=
  match s with
  | EmptyString => None
  | String x s' => if Ascii.eqb x closing then Some s' else after_first closing s'
  end.

(** The first bracketed region of a text: it opens at the first
    [opening] and closes at the nearest [closing] after it. *)
Fixpoint first_region (opening closing : ascii) (s : string) : option string :=
  match s with
  | EmptyString => None
  | String x s' =>
      if Ascii.eqb x opening then option_map (String x) (up_to closing s')
      else first_region opening closing s'
  end.

(** JSON extraction as the specification words it: the parse of the
    first brace region if it parses, otherwise the parse of the first
    bracket region if it parses, otherwise the null sentinel. *)
Definition extract_json_spec (json_loads : string -> option value)
           (text : string) : value :=
  let parsed (region : option string) : option value :=
    match region with
    | Some m => json_loads m
    | None => None
    end in
  match parsed (first_region "{" "}" text) with
  | Some v => v
  | None =>
      match parsed (first_region "[" "]" text) with
      | Some v => v
      | None => VNone
      end
  end.

(** The concatenation of texts. *)
Definition join (texts : list string) : string :=
  fold_right append EmptyString texts.

(** What a library pass produced: the texts it handed over before it
    raised, if it raised. *)
Fixpoint texts_before_raise (pages : list (option string)) : list string :=
  match pages with
  | Some t :: pages' => t :: texts_before_raise pages'
  | _ => []
  end.

Definition fitz_produced (f : pdf_file) : list string :=
  if seek_ok f then
    match fitz_open f with
    | Some doc => texts_before_raise (fitz_pages doc)
    | None => []
    end
  else [].

(** pdfplumber's pages: a page without text hands over nothing, a page
    with text hands over the text and a line feed. *)
Fixpoint lines_before_raise (pages : list plumber_page) : list string :=
  match pages with
  | PlumberText EmptyString :: pages' => lines_before_raise pages'
  | PlumberText t :: pages' => (t ++ nl) :: lines_before_raise pages'
  | PlumberNone :: pages' => lines_before_raise pages'
  | _ => []
  end.

Definition plumber_produced (f : pdf_file) : list string :=
  if seek_ok f then
    match plumber_open f with
    | Some pages => lines_before_raise pages
    | None => []
    end
  else [].

(** The evaluation records that hold just the given integer scores,
    and the exact mean of the scores. *)
Definition records (scores : list Z) : list value :=
  map (fun n => VDict [("total_score", VInt n)]) scores.

Definition total (scores : list Z) : Z := fold_right Z.add 0%Z scores.

Definition mean (scores : list Z) : Q :=
  Qmake (total scores) (Pos.of_nat (List.length scores)).

(** The report of a non-empty list. *)
Definition report (score : PyFloat.float) (level : string) (n : nat) : value :=
  VDict [("overall_score", VFloat score); ("performance_level", VStr level);
         ("total_questions", VInt (Z.of_nat n))].

(** The boundary behaviour read on exact means: every list of integer
    scores whose mean lies in [n - 0.005, n) is reported with the score
    [n] and the given level. *)
Definition boundary_claim (n : Z) (level : string) : Prop :=
  forall scores : list Z,
    scores <> [] ->
    Qle (Qmake (1000 * n - 5) 1000) (mean scores) ->
    Qlt (mean scores) (inject_Z n) ->
    final_report (records scores)
    = Ok (report (PyFloat.of_int n) level (List.length scores)).

(** The order of a float and an integer, on exact values: a NaN is
    neither at least nor below anything. *)
Definition at_least (f : PyFloat.float) (n : Z) : Prop :=
  match f with
  | S754_nan => False
  | S754_infinity s => s = false
  | S754_zero _ => (n <= 0)%Z
  | S754_finite _ _ _ => Qle (inject_Z n) (PyFloat.to_Q f)
  end.

Definition below (f : PyFloat.float) (n : Z) : Prop :=
  match f with
  | S754_nan => False
  | S754_infinity s => s = true
  | S754_zero _ => (0 < n)%Z
  | S754_finite _ _ _ => Qlt (PyFloat.to_Q f) (inject_Z n)
  end.

(** A JSON object. *)
Definition is_dict (v : value) : Prop :=
  match v with VDict _ => True | _ => False end.

(** The claim on [gen_questions] as the specification states it: for
    every resume, count and model it returns at most [num] items; when
    the output parses as a list every returned item carries its
    1-based position as id; when it does not, the list is empty. *)
Definition gen_questions_claim (json_loads : string -> option value)
           (json_dumps_indent2 : value -> string)
           (resume : value) (num : Z) (m : model) : Prop :=
  let response :=
    reply m (questions_prompt json_dumps_indent2 resume num) 800 (7 # 10) in
  exists items,
    run m (gen_questions json_loads json_dumps_indent2 resume num) = Ok (VList items)
    /\ (Z.of_nat (List.length items) <= num)%Z
    /\ (forall qs, extract_json json_loads response = VList qs ->
                   forall i item, nth_error items i = Some item ->
                                  field "id" item = VInt (Z.of_nat i + 1))
    /\ ((forall qs, extract_json json_loads response <> VList qs) -> items = []).


(** The number of words of a line. *)
Definition word_count (line : string) : nat := List.length (split_ws line).

(** ** Further vocabulary *)

Definition first_char (s : string) : option ascii :=
  match s with
  | String c _ => Some c
  | EmptyString => None
  end.

Definition final_char (s : string) : option ascii := Re.last_char None s.

(** A text without white space at either end. *)
Definition trimmed (s : string) : Prop :=
  (forall c, first_char s = Some c -> isspace c = false)
  /\ (forall c, final_char s = Some c -> isspace c = false).

(** A text made of white space only (the empty text included). *)
Definition blank (s : string) : Prop := Re.all_in isspace s = true.

(** The assistant marker without its first character. *)
Definition marker_tail : string := "|assistant|>".

(** [u] occurs in [s]. *)
Definition substring_of (u s : string) : Prop :=
  exists pre post, s = pre ++ u ++ post.


(** The line feed, and the text whose lines are [ls]: the lines with a
    line feed between them. *)
Definition line_feed : ascii := ascii_of_nat 10.

Fixpoint join_lines (ls : list string) : string :=
  match ls with
  | [] => EmptyString
  | l :: ls' =>
      match ls' with
      | [] => l
      | _ => l ++ String line_feed (join_lines ls')
      end
  end.



(** The record [e] holds the score [x] in its total_score field,
    whatever else it holds. *)
Definition scored (e x : value) : Prop :=
  exists d, e = VDict d /\ dict_find "total_score" d = Some x.







(** ** Sample inputs *)

(** A model that answers every prompt with the same text. *)
Definition constant_model (text : string) : model := fun _ _ _ => text.

(** [json.dumps(resume, indent=2)] of the empty resume. *)
Definition dumps_empty : value -> string := fun _ => "{}".

(** A model output that parses as a list of two objects: the first
    brace match stops inside the nested object and does not parse, so
    the bracket match is read.  The first item carries the id 9, the
    second none. *)
Definition nested_questions_output : string :=
  "[{" ++ quoted "id" ++ ": 9, " ++ quoted "question" ++ ": " ++ quoted "Why Python?"
       ++ ", " ++ quoted "meta" ++ ": {" ++ quoted "level" ++ ": 1}}, {"
       ++ quoted "question" ++ ": " ++ quoted "Why Docker?" ++ "}]".

Definition nested_questions : list value :=
  [VDict [("id", VInt 9); ("question", VStr "Why Python?");
          ("meta", VDict [("level", VInt 1)])];
   VDict [("question", VStr "Why Docker?")]].

(** A model output in the format the prompt asks for. *)
Definition flat_questions_output : string :=
  "[{" ++ quoted "id" ++ ":1," ++ quoted "question" ++ ":" ++ quoted "Why Python?"
       ++ "," ++ quoted "focus" ++ ":" ++ quoted "python" ++ "}]".


(** The doubles 80.0 and 79.99999999999999 (the double just below 80). *)
Definition float_80 : PyFloat.float := S754_finite false 5629499534213120 (-46).
Definition float_below_80 : PyFloat.float :=
  S754_finite false 5629499534213119 (-46).

(** The text of a short resume. *)
Definition sample_resume_text : string :=
  "Jane Doe" ++ nl ++ "jane.doe@example.com  +1 (555) 123-4567" ++ nl
  ++ "Senior engineer: Python, SQL and Machine Learning on AWS".

(** A one-page PDF that only [fitz] can open. *)
Definition one_page_pdf (page : string) : pdf_bytes :=
  {| as_fitz := Some {| fitz_pages := [Some page]; fitz_close_ok := true |};
     as_plumber := None |}.

(* ================================================================== *)
(** * Properties *)

(** ** The library models on sample inputs

    Each value below is what CPython 3.11 returns for the same call. *)

Example strip_sample : strip ("  a b " ++ nl) = "a b".
Proof. reflexivity. Qed.

Example split_ws_sample : split_ws " John  Q Public " = ["John"; "Q"; "Public"].
Proof. reflexivity. Qed.

Example split_char_sample : split_char "," "a,,b," = ["a"; ""; "b"; ""].
Proof. reflexivity. Qed.

Example title_sample :
  map title skills_list
  = ["Python"; "Java"; "Javascript"; "React"; "Sql"; "Aws"; "Docker";
     "Machine Learning"; "Deep Learning"; "Nlp"].
Proof. reflexivity. Qed.

Example last_piece_sample :
  last_piece "<|assistant|>" "x<|assistant|>y<|assistant|> z" = " z".
Proof. reflexivity. Qed.

Example of_int_sample : PyStr.of_int (-15) = "-15" /\ PyStr.of_int 0 = "0".
Proof. split; reflexivity. Qed.

Example search_email_sample :
  option_map Re.group
    (Re.search Re.email_re "mail me: john.doe@example.com. thanks a@b.c")
  = Some "john.doe@example.com"
  /\ Re.search Re.email_re "x@y" = None
  /\ option_map Re.group (Re.search Re.email_re "-a@b.c-d.e. ") = Some "a@b.c-d.e".
Proof. repeat split; vm_compute; reflexivity. Qed.

Example search_phone_sample :
  Re.search Re.phone_re "tel (+1) 555-123-4567 ext"
  = Some (Re.Found "tel (" "+1) 555-123-4567 ")
  /\ Re.search Re.phone_re "12345678" = None
  /\ Re.search Re.phone_re "(((123456789" = Some (Re.Found "((" "(123456789").
Proof. repeat split; vm_compute; reflexivity. Qed.

Example search_region_sample :
  option_map Re.group (Re.search Re.obj_re "{a{b}c}") = Some "{a{b}"
  /\ Re.search Re.obj_re "{ab" = None.
Proof. split; vm_compute; reflexivity. Qed.

(** [11999/200], [round(11999/200, 2)] (which is [59.99]), [0.1 + 0.2]
    and [float(2**53 + 1)]. *)
Example float_samples :
  PyFloat.int_div 11999 200 = S754_finite false 8443545613877903 (-47)
  /\ PyFloat.round_ndigits (PyFloat.int_div 11999 200) 2
     = S754_finite false 8442841926436127 (-47)
  /\ PyFloat.int_div 5999 100 = S754_finite false 8442841926436127 (-47)
  /\ PyFloat.add (PyFloat.int_div 1 10) (PyFloat.int_div 2 10)
     = S754_finite false 5404319552844596 (-54)
  /\ PyFloat.of_int (2 ^ 53 + 1) = S754_finite false 4503599627370496 1
  /\ PyFloat.round_ndigits (PyFloat.int_div 125 1000) 2 = PyFloat.int_div 12 100
  /\ PyFloat.round_ndigits (PyFloat.int_div 2675 1000) 2 = PyFloat.int_div 267 100
  /\ PyFloat.round_ndigits (PyFloat.int_div (-1) 1000) 2 = S754_zero true.
Proof. repeat split; vm_compute; reflexivity. Qed.

(** [10**400 / 3] and [float(2**1024 - 2**970)] raise [OverflowError]. *)
Example float_overflow_samples :
  truediv (VInt (10 ^ 400)) 3
  = Raise (Exn OverflowError "integer division result too large for a float")
  /\ to_float (2 ^ 1024 - 2 ^ 970)
     = Raise (Exn OverflowError "int too large to convert to float").
Proof. split; vm_compute; reflexivity. Qed.

Example json_samples :
  JsonRef.loads ("{" ++ quoted "a" ++ ": 1, " ++ quoted "b" ++ ": {"
                     ++ quoted "c" ++ ": []}, " ++ quoted "a" ++ ": 2}")
  = Some (VDict [("a", VInt 2); ("b", VDict [("c", VList [])])])
  /\ JsonRef.loads "  [1, 2.5, -3e2, null, true, false] "
     = Some (VList [VInt 1; VFloat (S754_finite false 5629499534213120 (-51));
                    VFloat (S754_finite true 5277655813324800 (-44));
                    VNone; VBool true; VBool false])
  /\ JsonRef.loads "[1,]" = None
  /\ JsonRef.loads "01" = None
  /\ JsonRef.loads ("{" ++ quoted "a" ++ ": 1") = None
  /\ JsonRef.loads "-0.0" = Some (VFloat (S754_zero true))
  /\ JsonRef.loads "1e400" = Some (VFloat (S754_infinity false))
  /\ JsonRef.loads "[NaN, -Infinity]"
     = Some (VList [VFloat S754_nan; VFloat (S754_infinity true)]).
Proof. repeat split; vm_compute; reflexivity. Qed.

(** A record without the field, an item that is no record, and a score
    that is no number make [final_report] raise. *)
Example final_report_raises :
  final_report [VDict [("feedback", VStr "fine")]]
  = Raise (Exn KeyError "'total_score'")
  /\ final_report [VInt 3]
     = Raise (Exn TypeError "'int' object is not subscriptable")
  /\ final_report [VDict [("total_score", VStr "85")]]
     = Raise (Exn TypeError "unsupported operand type(s) for +: 'int' and 'str'").
Proof. repeat split; reflexivity. Qed.

(** ** Strings *)

Module StrFacts.

Lemma app_nil_r (s : string) : s ++ "" = s.
Proof. induction s; simpl; congruence. Qed.

Lemma app_assoc (a b c : string) : (a ++ b) ++ c = a ++ (b ++ c).
Proof. induction a; simpl; congruence. Qed.

Lemma length_app (a b : string) :
  String.length (a ++ b) = String.length a + String.length b.
Proof. induction a; simpl; congruence. Qed.

Lemma take_app (w rest : string) :
  take (String.length (w ++ rest) - String.length rest) (w ++ rest) = w.
Proof.
  rewrite length_app.
  replace (String.length w + String.length rest - String.length rest)
    with (String.length w) by lia.
  induction w; simpl.
  - destruct rest; reflexivity.
  - now rewrite IHw.
Qed.

Lemma app_inv_head (a b c : string) : a ++ b = a ++ c -> b = c.
Proof. induction a; simpl; intros H; [assumption | injection H; auto]. Qed.


Lemma length_lower (s : string) : String.length (lower s) = String.length s.
Proof. induction s; simpl; congruence. Qed.

(** [prefix] and [contains], read as decompositions. *)
Lemma prefix_app (p s : string) :
  prefix p s = true <-> exists rest, s = p ++ rest.
Proof.
  revert s; induction p as [|a p IH]; intros s.
  - destruct s; simpl; split; eauto.
  - destruct s as [|b s]; simpl.
    + split; [discriminate | intros [r H]; discriminate].
    + destruct (ascii_dec a b) as [->|Hne].
      * rewrite IH. split; intros [r H]; exists r; [now subst | now injection H].
      * split; [discriminate | intros [r H]; injection H; congruence].
Qed.

Lemma contains_nil (needle : string) : contains needle "" = prefix needle "".
Proof. unfold contains. destruct (prefix needle ""); reflexivity. Qed.

Lemma contains_cons (needle : string) (c : ascii) (hay : string) :
  contains needle (String c hay)
  = if prefix needle (String c hay) then true else contains needle hay.
Proof. reflexivity. Qed.

Lemma contains_app (needle hay : string) :
  contains needle hay = true <-> exists pre post, hay = pre ++ needle ++ post.
Proof.
  induction hay as [|c hay IH].
  - rewrite contains_nil, prefix_app. split.
    + intros [r E]. exists "", r. exact E.
    + intros (pre & post & H). destruct pre; simpl in H; [eauto | discriminate].
  - rewrite contains_cons.
    destruct (prefix needle (String c hay)) eqn:E.
    + apply prefix_app in E. destruct E as [r E].
      split; [intros _; exists "", r; exact E | reflexivity].
    + rewrite IH. split.
      * intros (pre & post & H). exists (String c pre), post. simpl. now rewrite H.
      * intros (pre & post & H). destruct pre as [|a pre]; simpl in H.
        -- assert (prefix needle (String c hay) = true) by (apply prefix_app; eauto).
           congruence.
        -- injection H as _ H. eauto.
Qed.

End StrFacts.

(** ** The matcher finds the leftmost match *)

Module ReFacts.

Import Re StrFacts.

Lemma last_char_app (prev : option ascii) (a b : string) :
  last_char prev (a ++ b) = last_char (last_char prev a) b.
Proof. revert prev; induction a; simpl; intros; auto. Qed.

Lemma rep_greedy_sound (c : cls) (k : cont) :
  forall s min prev x,
    rep_greedy c k min prev s = Some x ->
    exists w rest, s = w ++ rest /\ min <= String.length w /\
                   all_in c w = true /\ k (last_char prev w) rest = Some x.
Proof.
  induction s as [|a s IH]; intros min prev x H; simpl in H.
  - destruct min; [|discriminate]. exists "", "". simpl. auto.
  - assert (Hstop : match min with O => k prev (String a s) | S _ => None end = Some x ->
                    exists w rest, String a s = w ++ rest /\ min <= String.length w /\
                                   all_in c w = true /\ k (last_char prev w) rest = Some x).
    { destruct min; [|discriminate]. intros Hk. exists "", (String a s). simpl. auto. }
    destruct (c a) eqn:Hc; [|auto].
    destruct (rep_greedy c k (Nat.pred min) (Some a) s) as [r|] eqn:Hrec; [|auto].
    injection H as ->.
    destruct (IH _ _ _ Hrec) as (w & rest & -> & Hmin & Hall & Hk).
    exists (String a w), rest. simpl. rewrite Hc, Hall. repeat split; auto. lia.
Qed.

Lemma rep_lazy_sound (c : cls) (k : cont) :
  forall s min prev x,
    rep_lazy c k min prev s = Some x ->
    exists w rest, s = w ++ rest /\ min <= String.length w /\
                   all_in c w = true /\ k (last_char prev w) rest = Some x.
Proof.
  induction s as [|a s IH]; intros min prev x H; simpl in H.
  - destruct min; [|discriminate].
    destruct (k prev "") eqn:Hk; [|discriminate].
    exists "", "". simpl. rewrite Hk. auto.
  - assert (Hmore : (if c a then rep_lazy c k (Nat.pred min) (Some a) s else None) = Some x ->
                    exists w rest, String a s = w ++ rest /\ min <= String.length w /\
                                   all_in c w = true /\ k (last_char prev w) rest = Some x).
    { destruct (c a) eqn:Hc; [|discriminate]. intros Hrec.
      destruct (IH _ _ _ Hrec) as (w & rest & -> & Hmin & Hall & Hk).
      exists (String a w), rest. simpl. rewrite Hc, Hall. repeat split; auto. lia. }
    destruct min; [|auto].
    destruct (k prev (String a s)) eqn:Hk; [|auto].
    exists "", (String a s). simpl. rewrite Hk. auto.
Qed.

Lemma rep_greedy_complete (c : cls) (k : cont) :
  forall w rest min prev y,
    min <= String.length w -> all_in c w = true ->
    k (last_char prev w) rest = Some y ->
    exists x, rep_greedy c k min prev (w ++ rest) = Some x.
Proof.
  induction w as [|a w IH]; intros rest min prev y Hmin Hall Hk; simpl in *.
  - destruct min; [|lia].
    destruct rest as [|b rest]; simpl; [eauto|].
    destruct (c b); [|eauto].
    destruct (rep_greedy c k 0 (Some b) rest); eauto.
  - apply andb_true_iff in Hall. destruct Hall as [Hc Hall]. rewrite Hc.
    destruct (IH rest (Nat.pred min) (Some a) y) as [x Hx]; auto; [lia|].
    rewrite Hx. eauto.
Qed.

Lemma rep_lazy_complete (c : cls) (k : cont) :
  forall w rest min prev y,
    min <= String.length w -> all_in c w = true ->
    k (last_char prev w) rest = Some y ->
    exists x, rep_lazy c k min prev (w ++ rest) = Some x.
Proof.
  induction w as [|a w IH]; intros rest min prev y Hmin Hall Hk; simpl in *.
  - destruct min; [|lia].
    destruct rest as [|b rest]; simpl; rewrite Hk; eauto.
  - apply andb_true_iff in Hall. destruct Hall as [Hc Hall]. rewrite Hc.
    destruct (IH rest (Nat.pred min) (Some a) y) as [x Hx]; auto; [lia|].
    rewrite Hx. destruct min; [|eauto].
    destruct (k prev (String a (w ++ rest))); eauto.
Qed.

Lemma exec_sound :
  forall r k prev s x,
    exec r k prev s = Some x ->
    exists w rest, s = w ++ rest /\ m_seq r prev w rest /\
                   k (last_char prev w) rest = Some x.
Proof.
  induction r as [|a r IH]; intros k prev s x H.
  - exists "", s. simpl in *. repeat split; auto. constructor.
  - assert (Hskip : m_atom a prev "" s ->
                    exec r k prev s = Some x ->
                    exists w rest, s = w ++ rest /\ m_seq (a :: r) prev w rest /\
                                   k (last_char prev w) rest = Some x).
    { intros Hat Hx. destruct (IH _ _ _ _ Hx) as (w & rest & E & Hm & Hk).
      subst s. exists w, rest. repeat split; auto.
      change w with ("" ++ w). constructor; auto. }
    assert (Htake : forall y s',
               s = String y s' ->
               (forall rest, m_atom a prev (String y "") rest) ->
               exec r k (Some y) s' = Some x ->
               exists w rest, s = w ++ rest /\ m_seq (a :: r) prev w rest /\
                              k (last_char prev w) rest = Some x).
    { intros y s' E0 Hat Hx. destruct (IH _ _ _ _ Hx) as (w & rest & E & Hm & Hk).
      subst. exists (String y w), rest. repeat split; auto.
      change (String y w) with (String y "" ++ w). constructor; auto. }
    destruct a as [c|c|g min c|]; simpl in H.
    + destruct s as [|y s']; [discriminate|].
      destruct (c y) eqn:Hc; [|discriminate].
      apply (Htake y s'); auto; intros; now constructor.
    + destruct s as [|y s'].
      * apply Hskip; auto. constructor.
      * destruct (c y) eqn:Hc.
        -- destruct (exec r k (Some y) s') eqn:Hx.
           ++ injection H as ->. apply (Htake y s'); auto; intros; now constructor.
           ++ apply Hskip; auto. constructor.
        -- apply Hskip; auto. constructor.
    + assert (Hrep : exists w1 rest1, s = w1 ++ rest1 /\ min <= String.length w1 /\
                       all_in c w1 = true /\
                       exec r k (last_char prev w1) rest1 = Some x).
      { destruct g; [eapply rep_greedy_sound | eapply rep_lazy_sound]; eauto. }
      destruct Hrep as (w1 & rest1 & E1 & Hmin & Hall & Hx).
      destruct (IH _ _ _ _ Hx) as (w & rest & E & Hm & Hk).
      subst. exists (w1 ++ w), rest. rewrite app_assoc, last_char_app.
      repeat split; auto. constructor; auto. now constructor.
    + destruct (boundary prev s) eqn:Hb; [|discriminate].
      apply Hskip; auto. now constructor.
Qed.

Lemma exec_complete :
  forall r prev w rest,
    m_seq r prev w rest ->
    forall k y, k (last_char prev w) rest = Some y ->
                exists x, exec r k prev (w ++ rest) = Some x.
Proof.
  induction 1 as [prev rest | a r prev w1 w2 rest Hat Hseq IH]; intros k y Hk.
  - simpl in *. eauto.
  - rewrite last_char_app in Hk.
    destruct (IH _ _ Hk) as [x Hx].
    rewrite app_assoc.
    inversion Hat; subst; simpl; simpl in Hx.
    + rewrite H. eauto.
    + rewrite H. rewrite Hx. eauto.
    + destruct (w2 ++ rest) as [|b t]; [eauto|].
      destruct (c b); [|eauto].
      destruct (exec r k (Some b) t); eauto.
    + destruct g; [eapply rep_greedy_complete | eapply rep_lazy_complete]; eauto.
    + rewrite H. eauto.
Qed.

Lemma match_here_sound (r : regex) (prev : option ascii) (s rest : string) :
  match_here r prev s = Some rest ->
  exists w, s = w ++ rest /\ m_seq r prev w rest.
Proof.
  intros H. apply exec_sound in H.
  destruct H as (w & rest' & -> & Hm & Hk). injection Hk as ->. eauto.
Qed.

Lemma match_here_complete (r : regex) (prev : option ascii) (w rest : string) :
  m_seq r prev w rest -> exists rest', match_here r prev (w ++ rest) = Some rest'.
Proof. intros H. eapply exec_complete; eauto. Qed.

Lemma search_from_eq (r : regex) (prev : option ascii) (pre s : string) :
  search_from r prev pre s
  = match match_here r prev s with
    | Some rest =>
        Some (Found pre (take (String.length s - String.length rest) s))
    | None =>
        match s with
        | String x s' => search_from r (Some x) (pre ++ String x "") s'
        | EmptyString => None
        end
    end.
Proof. destruct s; reflexivity. Qed.

Lemma match_here_group (r : regex) (prev : option ascii) (s rest : string) :
  match_here r prev s = Some rest ->
  exists w, s = w ++ rest /\ m_seq r prev w rest /\
            take (String.length s - String.length rest) s = w.
Proof.
  intros H. apply match_here_sound in H. destruct H as (w & E & Hm).
  exists w. subst s. rewrite take_app. auto.
Qed.

Lemma search_from_sound (r : regex) :
  forall s prev pre f,
    search_from r prev pre s = Some f ->
    exists skipped rest,
      before f = pre ++ skipped /\ s = skipped ++ group f ++ rest /\
      m_seq r (last_char prev skipped) (group f) rest /\
      forall sk' w' rest',
        s = sk' ++ w' ++ rest' -> m_seq r (last_char prev sk') w' rest' ->
        String.length skipped <= String.length sk'.
Proof.
  assert (Hhere : forall s prev pre rest,
             match_here r prev s = Some rest ->
             let f := Found pre (take (String.length s - String.length rest) s) in
             exists skipped rest,
               before f = pre ++ skipped /\ s = skipped ++ group f ++ rest /\
               m_seq r (last_char prev skipped) (group f) rest /\
               forall sk' w' rest',
                 s = sk' ++ w' ++ rest' -> m_seq r (last_char prev sk') w' rest' ->
                 String.length skipped <= String.length sk').
  { intros s prev pre rest Hm f.
    destruct (match_here_group _ _ _ _ Hm) as (w & E & Hw & Ht).
    exists "", rest. subst f. cbn [before group]. rewrite Ht, app_nil_r. simpl.
    repeat split; auto. intros; lia. }
  induction s as [|a s IH]; intros prev pre f H; rewrite search_from_eq in H;
    destruct (match_here r prev _) as [rest|] eqn:Hm; try discriminate.
  - injection H as <-. exact (Hhere "" prev pre rest Hm).
  - injection H as <-. exact (Hhere (String a s) prev pre rest Hm).
  - destruct (IH _ _ _ H) as (sk & rest & Hb & Hs & Hseq & Hmin).
    exists (String a sk), rest. rewrite Hb, app_assoc. simpl.
    repeat split; auto; [congruence|].
    intros sk' w' rest' E Hm'. destruct sk' as [|b sk']; simpl in *.
    + destruct (match_here_complete _ _ _ _ Hm') as [x Hx]. congruence.
    + injection E as -> E. apply Hmin in Hm'; auto. lia.
Qed.

Lemma search_from_none (r : regex) :
  forall s prev pre,
    search_from r prev pre s = None ->
    forall sk w rest, s = sk ++ w ++ rest -> ~ m_seq r (last_char prev sk) w rest.
Proof.
  induction s as [|a s IH]; intros prev pre H sk w rest E Hm; simpl in H.
  - destruct (match_here r prev "") eqn:Hh; [discriminate|].
    destruct sk; [|discriminate]. simpl in *.
    destruct (match_here_complete _ _ _ _ Hm) as [x Hx]. congruence.
  - destruct (match_here r prev (String a s)) eqn:Hh; [discriminate|].
    destruct sk as [|b sk]; simpl in *.
    + destruct (match_here_complete _ _ _ _ Hm) as [x Hx]. congruence.
    + injection E as -> E. eapply IH; eauto.
Qed.

(** [re.search] returns the leftmost match, and returns one whenever
    the text holds a match. *)
Lemma search_leftmost (r : regex) (text : string) (f : found) :
  search r text = Some f -> leftmost_match r text (before f) (group f).
Proof.
  intros H. apply search_from_sound in H.
  destruct H as (sk & rest & Hb & Hs & Hm & Hmin). simpl in Hb. rewrite Hb.
  split.
  - exists rest. auto.
  - intros pre' w' (post' & E & Hm'). eauto.
Qed.

Lemma search_none (r : regex) (text : string) :
  search r text = None -> ~ has_match r text.
Proof.
  intros H (pre & w & post & E & Hm).
  eapply search_from_none; eauto.
Qed.

Lemma search_some (r : regex) (text : string) :
  has_match r text -> exists f, search r text = Some f.
Proof.
  intros H. destruct (search r text) eqn:E; [eauto|].
  now apply search_none in E.
Qed.

End ReFacts.

(** ** The model-calling functions *)

Section ModelFacts.

Variable json_loads : string -> option value.
Variable json_dumps_indent2 : value -> string.

Lemma run_bind {A B} (m : model) (p : prog A) (f : A -> prog B) :
  run m (bind p f) = match run m p with
                     | Ok a => run m (f a)
                     | Raise e => Raise e
                     end.
Proof. induction p; simpl; auto. Qed.

Lemma run_generate (m : model) (prompt : string) (max_tokens : Z) (temp : Q) :
  run m (generate prompt max_tokens temp) = Ok (reply m prompt max_tokens temp).
Proof. reflexivity. Qed.

Lemma run_evaluate (m : model) (question answer : string) :
  run m (evaluate json_loads question answer)
  = Ok (match extract_json json_loads
                (reply m (evaluate_prompt question answer) 800 (2 # 10)) with
        | VDict d => VDict d
        | _ => default_evaluation
        end).
Proof.
  unfold evaluate. rewrite run_bind, run_generate.
  unfold default_max_tokens.
  destruct (extract_json json_loads _); reflexivity.
Qed.

Lemma extract_resume_rejects (f : pdf_file) :
  String.length (extract_text_from_pdf f) < 30 ->
  extract_resume json_loads f = Throw extraction_error.
Proof.
  intros H. unfold extract_resume.
  apply Nat.ltb_lt in H. rewrite H. now rewrite orb_true_r.
Qed.

Lemma extract_resume_accepts (f : pdf_file) (m : model) :
  30 <= String.length (extract_text_from_pdf f) ->
  let text := extract_text_from_pdf f in
  run m (extract_resume json_loads f)
  = Ok (match extract_json json_loads
                (reply m (resume_prompt text) 800 (1 # 10)) with
        | VDict d => if truthy (dict_get "name" d) then VDict d
                     else extract_resume_basic text
        | _ => extract_resume_basic text
        end).
Proof.
  intros H text. subst text. unfold extract_resume.
  remember (extract_text_from_pdf f) as text eqn:E. clear E.
  assert (Hlen : (String.length text <? 30)%nat = false) by (apply Nat.ltb_ge; exact H).
  rewrite Hlen.
  assert (Hne : nonempty text = true).
  { destruct text; [simpl in H; lia | reflexivity]. }
  rewrite Hne. cbn [negb orb]. cbv iota.
  rewrite run_bind, run_generate. unfold default_max_tokens.
  destruct (extract_json json_loads _); try reflexivity.
  destruct (truthy _); reflexivity.
Qed.

End ModelFacts.

(** C5 -- For every question and every answer whose whitespace-trimmed
    length is less than 10, [gen_followup] returns exactly the literal
    "Could you explain more?" and does not invoke the model: the
    computation is a plain return, so under every model it makes no
    call. *)
Theorem gen_followup_short_answer :
  forall question answer : string,
    String.length (strip answer) < 10 ->
    gen_followup question answer = Return "Could you explain more?"
    /\ forall m : model,
         model_calls m (gen_followup question answer) = 0
         /\ run m (gen_followup question answer) = Ok "Could you explain more?".
Proof.
  intros question answer H. unfold gen_followup.
  apply Nat.ltb_lt in H. rewrite H. split; [reflexivity|].
  intros m. split; reflexivity.
Qed.

Lemma gen_followup_short_answer_witness :
  String.length (strip "   yes  ") < 10
  /\ gen_followup "Why Python?" "   yes  " = Return "Could you explain more?".
Proof.
  split.
  - vm_compute. lia.
  - apply (gen_followup_short_answer "Why Python?" "   yes  "). vm_compute. lia.
Defined.

(** C6 -- For every question and answer and every model, when JSON
    extraction of the model's evaluation response yields a dict, that
    dict is returned; when it fails or yields anything else, [evaluate]
    returns exactly the fixed default object (sub-scores 10, total 40,
    feedback "Answer evaluated."). *)
Theorem evaluate_dict_or_default :
  forall (json_loads : string -> option value) (question answer : string)
         (m : model),
    let response := reply m (evaluate_prompt question answer) 800 (2 # 10) in
    (forall d, extract_json json_loads response = VDict d ->
               run m (evaluate json_loads question answer) = Ok (VDict d))
    /\ ((forall d, extract_json json_loads response <> VDict d) ->
        run m (evaluate json_loads question answer)
        = Ok (VDict [("technical_accuracy", VInt 10); ("completeness", VInt 10);
                     ("practical_knowledge", VInt 10); ("communication", VInt 10);
                     ("total_score", VInt 40);
                     ("feedback", VStr "Answer evaluated.")])).
Proof.
  intros json_loads question answer m response. subst response.
  rewrite run_evaluate. split.
  - intros d ->. reflexivity.
  - intros H. destruct (extract_json json_loads _); try reflexivity.
    now destruct (H items).
Qed.

(** C7 -- For every PDF input from which fewer than 30 characters of
    text are extracted (zero included), [extract_resume] raises the
    extraction error "Could not extract text from resume" instead of
    returning, and [/upload_resume] answers with status 500 and that
    message, without a call of the model. *)
Theorem short_text_is_rejected :
  forall json_loads : string -> option value,
    (forall f : pdf_file,
        String.length (extract_text_from_pdf f) < 30 ->
        extract_resume json_loads f
        = Throw (Exn ValueError "Could not extract text from resume"))
    /\ (forall (file : pdf_bytes) (m : model),
           String.length (extract_text_from_pdf (BytesIO file)) < 30 ->
           run m (upload_resume json_loads file)
           = Ok {| status_code := 500;
                   content := VDict [("error",
                                      VStr "Could not extract text from resume")] |}
           /\ model_calls m (upload_resume json_loads file) = 0).
Proof.
  intros json_loads. split.
  - intros f H. now apply extract_resume_rejects.
  - intros file m H. unfold upload_resume.
    rewrite (extract_resume_rejects json_loads _ H). split; reflexivity.
Qed.

Lemma evaluate_dict_or_default_witness :
  run (constant_model ("{" ++ quoted "total_score" ++ ": 77}"))
      (evaluate JsonRef.loads "What is a list?" "A sequence of items.")
  = Ok (VDict [("total_score", VInt 77)])
  /\ run (constant_model "I cannot grade this answer.")
         (evaluate JsonRef.loads "What is a list?" "A sequence of items.")
     = Ok default_evaluation.
Proof.
  split.
  - apply (proj1 (evaluate_dict_or_default JsonRef.loads
                    "What is a list?" "A sequence of items."
                    (constant_model ("{" ++ quoted "total_score" ++ ": 77}")))).
    vm_compute. reflexivity.
  - apply (proj2 (evaluate_dict_or_default JsonRef.loads
                    "What is a list?" "A sequence of items."
                    (constant_model "I cannot grade this answer."))).
    intros d. vm_compute. discriminate.
Defined.

Lemma short_text_is_rejected_witness :
  String.length (extract_text_from_pdf (BytesIO (one_page_pdf "Jane Doe"))) < 30
  /\ run (constant_model "") (upload_resume JsonRef.loads (one_page_pdf "Jane Doe"))
     = Ok {| status_code := 500;
             content := VDict [("error", VStr "Could not extract text from resume")] |}.
Proof.
  split.
  - vm_compute. lia.
  - apply (proj2 (short_text_is_rejected JsonRef.loads)
             (one_page_pdf "Jane Doe") (constant_model "")).
    vm_compute. lia.
Defined.

(** ** extract_text_from_pdf *)

Lemma join_app (a b : list string) : join (a ++ b)%list = join a ++ join b.
Proof.
  induction a as [|x a IH]; simpl; [reflexivity|].
  now rewrite IH, StrFacts.app_assoc.
Qed.

Lemma fitz_loop_text (pages : list (option string)) (text : string) :
  fst (fitz_loop pages text) = text ++ join (texts_before_raise pages).
Proof.
  revert text; induction pages as [|[t|] pages IH]; intros text; simpl.
  - now rewrite StrFacts.app_nil_r.
  - now rewrite IH, StrFacts.app_assoc.
  - now rewrite StrFacts.app_nil_r.
Qed.

Lemma plumber_loop_text (pages : list plumber_page) (text : string) :
  fst (plumber_loop pages text) = text ++ join (lines_before_raise pages).
Proof.
  revert text; induction pages as [|[| |t] pages IH]; intros text; simpl.
  - now rewrite StrFacts.app_nil_r.
  - now rewrite StrFacts.app_nil_r.
  - apply IH.
  - destruct t as [|c t]; simpl.
    + apply IH.
    + rewrite IH. now rewrite StrFacts.app_assoc.
Qed.

Lemma fitz_pass_text (f : pdf_file) (text : string) :
  try_pass (fitz_pass f) text = text ++ join (fitz_produced f).
Proof.
  unfold try_pass, fitz_pass, fitz_produced.
  destruct (seek_ok f); simpl; [|now rewrite StrFacts.app_nil_r].
  destruct (fitz_open f) as [doc|]; simpl; [|now rewrite StrFacts.app_nil_r].
  rewrite <- fitz_loop_text. now destruct (fitz_loop (fitz_pages doc) text).
Qed.

Lemma plumber_pass_text (f : pdf_file) (text : string) :
  try_pass (plumber_pass f) text = text ++ join (plumber_produced f).
Proof.
  unfold try_pass, plumber_pass, plumber_produced.
  destruct (seek_ok f); simpl; [|now rewrite StrFacts.app_nil_r].
  destruct (plumber_open f) as [pages|]; simpl; [|now rewrite StrFacts.app_nil_r].
  apply plumber_loop_text.
Qed.

(** C9 -- [extract_text_from_pdf] is a total function to strings: on
    every input, whichever library calls raise, it returns the stripped
    concatenation of the texts the fitz pass produced followed by the
    texts the pdfplumber pass produced (nothing is removed when the two
    passes produce the same text), and the empty string when neither
    pass produced anything. *)
Theorem extract_text_from_pdf_never_raises :
  forall f : pdf_file,
    extract_text_from_pdf f
    = strip (join (fitz_produced f ++ plumber_produced f)%list)
    /\ (fitz_produced f = [] -> plumber_produced f = [] ->
        extract_text_from_pdf f = "")
    /\ (forall t, fitz_produced f = [t] -> plumber_produced f = [t ++ nl] ->
                  extract_text_from_pdf f = strip (t ++ t ++ nl)).
Proof.
  intros f.
  assert (E : extract_text_from_pdf f
              = strip (join (fitz_produced f ++ plumber_produced f)%list)).
  { unfold extract_text_from_pdf.
    now rewrite plumber_pass_text, fitz_pass_text, join_app. }
  split; [exact E|]. split.
  - intros H1 H2. rewrite E, H1, H2. reflexivity.
  - intros t H1 H2. rewrite E, H1, H2. simpl.
    now rewrite !StrFacts.app_nil_r.
Qed.

Lemma extract_text_from_pdf_never_raises_witness :
  extract_text_from_pdf
    {| seek_ok := true; fitz_open := None; plumber_open := Some [PlumberRaises] |}
  = "".
Proof.
  apply (proj1 (proj2 (extract_text_from_pdf_never_raises
           {| seek_ok := true; fitz_open := None;
              plumber_open := Some [PlumberRaises] |}))); reflexivity.
Defined.

(** ** final_report *)

Lemma ge_int_at_least (f : PyFloat.float) (n : Z) :
  PyFloat.ge_int f n = true <-> at_least f n.
Proof.
  destruct f as [s|s| |s m e]; simpl.
  - apply Z.leb_le.
  - destruct s; simpl; split; congruence.
  - split; [discriminate | contradiction].
  - apply Qle_bool_iff.
Qed.

Lemma ge_int_below (f : PyFloat.float) (n : Z) :
  below f n -> PyFloat.ge_int f n = false.
Proof.
  destruct f as [s|s| |s m e]; simpl; intros H.
  - apply Z.leb_gt. exact H.
  - now subst s.
  - reflexivity.
  - destruct (Qle_bool _ _) eqn:E; [|reflexivity].
    apply Qle_bool_iff in E. exfalso. eapply Qlt_not_le; eauto.
Qed.

Lemma sum_records (scores : list Z) (a : Z) :
  sum_total_scores (VInt a) (records scores) = Ok (VInt (a + total scores)).
Proof.
  revert a; induction scores as [|n scores IH]; intros a; simpl.
  - now rewrite Z.add_0_r.
  - rewrite IH. now rewrite Z.add_assoc.
Qed.

Lemma length_records (scores : list Z) :
  List.length (records scores) = List.length scores.
Proof. apply length_map. Qed.

Lemma final_report_nonempty (evaluations : list value) (S : value)
      (avg : PyFloat.float) :
  evaluations <> [] ->
  sum_total_scores (VInt 0) evaluations = Ok S ->
  truediv S (Z.of_nat (List.length evaluations)) = Ok avg ->
  final_report evaluations
  = Ok (VDict [("overall_score", VFloat (PyFloat.round_ndigits avg 2));
               ("performance_level", VStr (performance_level avg));
               ("total_questions", VInt (Z.of_nat (List.length evaluations)))]).
Proof.
  intros Hne HS Havg. unfold final_report.
  destruct evaluations as [|e rest]; [congruence|].
  rewrite HS. unfold rbind. rewrite Havg. reflexivity.
Qed.

(** *** Records, their total_score fields, and the sum *)




Lemma scored_length {A} (wrap : A -> value) (scores : list A)
      (evaluations : list value) :
  Forall2 scored evaluations (map wrap scores) ->
  List.length evaluations = List.length scores.
Proof. intros H. apply Forall2_length in H. now rewrite length_map in H. Qed.







(** ** Integer division in binary64, step by step *)

Module DivFacts.








End DivFacts.

Module RoundFacts.

Import DivFacts.







End RoundFacts.

Module QuotientFacts.

Import DivFacts RoundFacts.









End QuotientFacts.

(** ** Quotients that are integers *)

Module ExactFacts.

Import DivFacts.





End ExactFacts.

(** At 2^47 records the bound of the lemma on quotients below a
    threshold is reached: the mean of 80 * 2^47 - 1 over 2^47 is below
    80 and is rounded to 80.0. *)
Example quotient_bound_is_tight :
  PyFloat.int_div (80 * 2 ^ 47 - 1) (2 ^ 47) = float_80
  /\ PyFloat.int_div (80 * (2 ^ 47 - 1) - 1) (2 ^ 47 - 1) = float_below_80.
Proof. split; vm_compute; reflexivity. Qed.




(** *** Rounding just below a threshold *)

Lemma round_half_even_boundary (n : Z) (m d : positive) :
  (1 <= n)%Z ->
  ((1000 * n - 5) * Zpos d <= Zpos m * 1000)%Z ->
  (Zpos m < n * Zpos d)%Z ->
  PyFloat.round_half_even (Zpos m * 100) d = (100 * n)%Z.
Proof.
  intros Hn Hlo Hhi. unfold PyFloat.round_half_even.
  pose proof (Z.div_mod (Zpos m * 100) (Zpos d) ltac:(lia)) as Hdm.
  pose proof (Z.mod_pos_bound (Zpos m * 100) (Zpos d) ltac:(lia)) as Hr.
  set (q := (Zpos m * 100 / Zpos d)%Z) in *.
  set (r := ((Zpos m * 100) mod Zpos d)%Z) in *.
  clearbody q r.
  assert (Hq : q = (100 * n - 1)%Z) by nia.
  assert (H2r : (Zpos d <= 2 * r)%Z) by nia.
  destruct (2 * r ?= Zpos d)%Z eqn:C.
  - rewrite Hq. replace (Z.even (100 * n - 1)) with false; [lia|].
    replace (100 * n - 1)%Z with (-1 + 2 * (50 * n))%Z by lia.
    now rewrite Z.even_add_mul_2.
  - rewrite Z.compare_lt_iff in C. lia.
  - lia.
Qed.

Lemma round_just_below (n : Z) (f : PyFloat.float) :
  (1 <= n)%Z ->
  Qle (Qmake (1000 * n - 5) 1000) (PyFloat.to_Q f) ->
  Qlt (PyFloat.to_Q f) (inject_Z n) ->
  PyFloat.round_ndigits f 2 = PyFloat.div (PyFloat.raw_int (100 * n)) (PyFloat.raw_int 100).
Proof.
  intros Hn Hlo Hhi.
  assert (Hzero : ~ Qle (Qmake (1000 * n - 5) 1000) 0).
  { unfold Qle. cbn [Qnum Qden]. lia. }
  destruct f as [s|s| |s m e]; try (now exfalso; apply Hzero).
  unfold PyFloat.to_Q in Hlo, Hhi. unfold PyFloat.round_ndigits.
  change (10 ^ Z.of_nat 2)%Z with 100%Z.
  destruct (0 <=? e)%Z eqn:He.
  - exfalso. unfold Qle, Qlt in *. cbn [Qnum Qden inject_Z] in *. lia.
  - unfold Qle, Qlt in *. cbn [Qnum Qden inject_Z] in *.
    destruct s; [exfalso; nia|].
    rewrite (round_half_even_boundary n m _ Hn); [|lia|lia].
    destruct (100 * n)%Z eqn:E; try lia. reflexivity.
Qed.

Lemma in_band (n : Z) (f : PyFloat.float) :
  (1 <= n)%Z ->
  Qle (Qmake (1000 * n - 5) 1000) (PyFloat.to_Q f) ->
  Qlt (PyFloat.to_Q f) (inject_Z n) ->
  below f n /\ forall k, (k < n)%Z -> at_least f k.
Proof.
  intros Hn Hlo Hhi.
  assert (Hzero : ~ Qle (Qmake (1000 * n - 5) 1000) 0).
  { unfold Qle. cbn [Qnum Qden]. lia. }
  destruct f as [s|s| |s m e]; try (now exfalso; apply Hzero).
  split; [exact Hhi|].
  intros k Hk. unfold at_least.
  eapply Qle_trans; [|exact Hlo].
  unfold Qle. cbn [Qnum Qden inject_Z]. lia.
Qed.

Lemma boundary_report (n : Z) (level : string) (evaluations : list value)
      (S : value) (avg : PyFloat.float) :
  (1 <= n)%Z ->
  evaluations <> [] ->
  sum_total_scores (VInt 0) evaluations = Ok S ->
  truediv S (Z.of_nat (List.length evaluations)) = Ok avg ->
  Qle (Qmake (1000 * n - 5) 1000) (PyFloat.to_Q avg) ->
  Qlt (PyFloat.to_Q avg) (inject_Z n) ->
  final_report evaluations
  = Ok (report (PyFloat.div (PyFloat.raw_int (100 * n)) (PyFloat.raw_int 100))
               (performance_level avg) (List.length evaluations)).
Proof.
  intros Hn Hne HS Havg Hlo Hhi.
  rewrite (final_report_nonempty evaluations S avg Hne HS Havg).
  now rewrite (round_just_below n avg Hn Hlo Hhi).
Qed.

(** C10, as stated, fails: 199 scores of 60 and one of 59 have the
    mean 59.995 exactly, and the report holds 59.99, not 60.0 (the
    double nearest to 11999/200 lies below 59.995). *)
Lemma boundary_claim_fails :
  let scores := (repeat 60%Z 199 ++ [59%Z])%list in
  Qeq (mean scores) (59995 # 1000)
  /\ final_report (records scores)
     = Ok (report (PyFloat.int_div 5999 100) "Average" 200)
  /\ PyFloat.int_div 5999 100 <> PyFloat.of_int 60
  /\ ~ (boundary_claim 80 "Good" /\ boundary_claim 60 "Average").
Proof.
  intros scores.
  assert (Hrep : final_report (records scores)
                 = Ok (report (PyFloat.int_div 5999 100) "Average" 200))
    by (vm_compute; reflexivity).
  assert (Hne : PyFloat.int_div 5999 100 <> PyFloat.of_int 60)
    by (vm_compute; discriminate).
  split; [vm_compute; reflexivity|].
  split; [exact Hrep|]. split; [exact Hne|].
  intros [_ H]. specialize (H scores).
  rewrite Hrep in H.
  assert (E : Ok (report (PyFloat.int_div 5999 100) "Average" 200)
              = Ok (report (PyFloat.of_int 60) "Average" (List.length scores))).
  { apply H.
    - discriminate.
    - vm_compute. discriminate.
    - vm_compute. reflexivity. }
  apply Hne. unfold report in E. congruence.
Qed.

(** C10, amended -- On a non-empty list the level is computed from the
    unrounded mean [avg] (a double) and the score from [avg] rounded to
    two decimals, so the two can disagree: whenever the exact value of
    the computed [avg] lies in [79.995, 80) the report holds
    overall_score 80.0 with "Good", and whenever it lies in
    [59.995, 60) it holds overall_score 60.0 with "Average". *)
Theorem score_and_level_disagree_at_boundaries :
  forall (evaluations : list value) (S : value) (avg : PyFloat.float),
    evaluations <> [] ->
    sum_total_scores (VInt 0) evaluations = Ok S ->
    truediv S (Z.of_nat (List.length evaluations)) = Ok avg ->
    (Qle (79995 # 1000) (PyFloat.to_Q avg) -> Qlt (PyFloat.to_Q avg) (inject_Z 80) ->
     final_report evaluations
     = Ok (report (PyFloat.of_int 80) "Good" (List.length evaluations)))
    /\ (Qle (59995 # 1000) (PyFloat.to_Q avg) -> Qlt (PyFloat.to_Q avg) (inject_Z 60) ->
        final_report evaluations
        = Ok (report (PyFloat.of_int 60) "Average" (List.length evaluations))).
Proof.
  intros evaluations S avg Hne HS Havg. split; intros Hlo Hhi.
  - rewrite (boundary_report 80 "Good" evaluations S avg); auto; [|lia].
    destruct (in_band 80 avg ltac:(lia) Hlo Hhi) as [Hb Ha].
    unfold performance_level.
    rewrite (ge_int_below _ _ Hb).
    rewrite (proj2 (ge_int_at_least avg 60) (Ha 60%Z ltac:(lia))).
    reflexivity.
  - rewrite (boundary_report 60 "Average" evaluations S avg); auto; [|lia].
    destruct (in_band 60 avg ltac:(lia) Hlo Hhi) as [Hb Ha].
    assert (Hb80 : below avg 80).
    { destruct avg as [s|s| |s m e]; simpl in *; auto; try lia.
      eapply Qlt_trans; [exact Hb | reflexivity]. }
    unfold performance_level.
    rewrite (ge_int_below _ _ Hb80), (ge_int_below _ _ Hb).
    reflexivity.
Qed.

Lemma score_and_level_disagree_at_boundaries_witness :
  final_report (records (repeat 80%Z 199 ++ [79%Z])%list)
  = Ok (report (PyFloat.of_int 80) "Good" 200)
  /\ final_report (records (repeat 60%Z 499 ++ [58%Z])%list)
     = Ok (report (PyFloat.of_int 60) "Average" 500).
Proof.
  split.
  - apply (proj1 (score_and_level_disagree_at_boundaries
             (records (repeat 80%Z 199 ++ [79%Z])%list) (VInt 15999)
             (PyFloat.int_div 15999 200)
             ltac:(discriminate) ltac:(vm_compute; reflexivity)
             ltac:(vm_compute; reflexivity))).
    + vm_compute. discriminate.
    + vm_compute. reflexivity.
  - apply (proj2 (score_and_level_disagree_at_boundaries
             (records (repeat 60%Z 499 ++ [58%Z])%list) (VInt 29998)
             (PyFloat.int_div 29998 500)
             ltac:(discriminate) ltac:(vm_compute; reflexivity)
             ltac:(vm_compute; reflexivity))).
    + vm_compute. discriminate.
    + vm_compute. reflexivity.
Defined.

(** ** extract_json *)

Module RegionFacts.

Import Re StrFacts ReFacts.

Lemma after_first_up_to (c : ascii) (s : string) :
  match after_first c s with
  | Some rest => exists body, up_to c s = Some body /\ s = body ++ rest
  | None => up_to c s = None
  end.
Proof.
  induction s as [|x s IH]; simpl; [reflexivity|].
  destruct (Ascii.eqb x c).
  - exists (String x ""). auto.
  - destruct (after_first c s) as [rest|].
    + destruct IH as (body & -> & ->). exists (String x body). auto.
    + now rewrite IH.
Qed.

Lemma lazy_any_until (c : ascii) (s : string) (prev : option ascii) :
  rep_lazy any (exec [Chr (lit c)] (fun _ rest => Some rest)) 0 prev s
  = after_first c s.
Proof.
  revert prev; induction s as [|x s IH]; intros prev; simpl; [reflexivity|].
  unfold lit at 1. destruct (Ascii.eqb x c); [reflexivity|].
  apply IH.
Qed.

Lemma match_here_region (o c : ascii) (prev : option ascii) (s : string) :
  match_here (region_re o c) prev s
  = match s with
    | String x s' => if Ascii.eqb x o then after_first c s' else None
    | EmptyString => None
    end.
Proof.
  destruct s as [|x s]; [reflexivity|].
  unfold match_here, region_re. cbn [exec]. unfold lit at 1.
  destruct (Ascii.eqb x o); [|reflexivity].
  apply lazy_any_until.
Qed.

Lemma after_first_suffix (c x : ascii) (s : string) :
  after_first c (String x s) = None -> after_first c s = None.
Proof. simpl. now destruct (Ascii.eqb x c). Qed.

Lemma search_from_no_closing (o c : ascii) :
  forall s prev pre,
    after_first c s = None -> search_from (region_re o c) prev pre s = None.
Proof.
  induction s as [|x s IH]; intros prev pre H;
    rewrite search_from_eq, match_here_region.
  - reflexivity.
  - pose proof (after_first_suffix _ _ _ H) as H'.
    rewrite H'. destruct (Ascii.eqb x o); now apply IH.
Qed.

Lemma search_from_region (o c : ascii) :
  forall s prev pre,
    option_map group (search_from (region_re o c) prev pre s) = first_region o c s.
Proof.
  induction s as [|x s IH]; intros prev pre;
    rewrite search_from_eq, match_here_region.
  - reflexivity.
  - simpl first_region. destruct (Ascii.eqb x o); [|apply IH].
    pose proof (after_first_up_to c s) as H.
    destruct (after_first c s) as [rest|].
    + destruct H as (body & -> & E). cbn [option_map group]. subst s.
      change (String x (body ++ rest)) with (String x body ++ rest).
      now rewrite take_app.
    + rewrite H. cbn [option_map].
      rewrite search_from_no_closing; [reflexivity|].
      pose proof (after_first_up_to c s) as H2.
      destruct (after_first c s); [|reflexivity].
      destruct H2 as (b & Hb & _). congruence.
Qed.

Lemma search_region (o c : ascii) (text : string) :
  option_map group (search (region_re o c) text) = first_region o c text.
Proof. apply search_from_region. Qed.

Lemma up_to_spec (c : ascii) (s body : string) :
  up_to c s = Some body <->
  exists mid post, s = mid ++ String c post /\ absent c mid
                   /\ body = mid ++ String c "".
Proof.
  unfold absent. revert body; induction s as [|x s IH]; intros body; simpl.
  - split; [discriminate|]. intros (mid & post & H & _). destruct mid; discriminate.
  - destruct (Ascii.eqb x c) eqn:E.
    + apply Ascii.eqb_eq in E. subst x. split.
      * intros H. injection H as <-. exists "", s. auto.
      * intros (mid & post & H & Hab & ->). destruct mid as [|y mid]; simpl in *.
        -- reflexivity.
        -- injection H as -> _. rewrite Ascii.eqb_refl in Hab. discriminate.
    + split.
      * destruct (up_to c s) as [b|]; [|discriminate]. intros H. injection H as <-.
        destruct (proj1 (IH b) eq_refl) as (mid & post & -> & Hab & ->).
        exists (String x mid), post. simpl. rewrite E. auto.
      * intros (mid & post & H & Hab & ->). destruct mid as [|y mid]; simpl in *.
        -- injection H as -> _. rewrite Ascii.eqb_refl in E. discriminate.
        -- injection H as -> ->. apply andb_true_iff in Hab. destruct Hab as [_ Hab].
           rewrite (proj2 (IH (mid ++ String c "")))by eauto. reflexivity.
Qed.

(** The first region, read as a decomposition of the text. *)
Lemma first_region_spec (o c : ascii) (s m : string) :
  first_region o c s = Some m <->
  exists pre mid post,
    s = pre ++ String o (mid ++ String c post)
    /\ absent o pre /\ absent c mid /\ m = String o (mid ++ String c "").
Proof.
  revert m; induction s as [|x s IH]; intros m; simpl.
  - split; [discriminate|]. intros (pre & mid & post & H & _). destruct pre; discriminate.
  - destruct (Ascii.eqb x o) eqn:E.
    + apply Ascii.eqb_eq in E. subst x. split.
      * destruct (up_to c s) as [b|] eqn:U; [|discriminate]. intros H. injection H as <-.
        apply up_to_spec in U. destruct U as (mid & post & -> & Hab & ->).
        exists "", mid, post. repeat split; auto.
      * intros (pre & mid & post & H & Hpre & Hmid & ->).
        destruct pre as [|y pre]; simpl in H.
        -- injection H as ->.
           rewrite (proj2 (up_to_spec c _ (mid ++ String c ""))) by eauto.
           reflexivity.
        -- injection H as -> _. unfold absent in Hpre. simpl in Hpre.
           rewrite Ascii.eqb_refl in Hpre. discriminate.
    + rewrite IH. split.
      * intros (pre & mid & post & -> & Hpre & Hmid & ->).
        exists (String x pre), mid, post. unfold absent in *. simpl. rewrite E. auto.
      * intros (pre & mid & post & H & Hpre & Hmid & ->).
        destruct pre as [|y pre]; simpl in H.
        -- injection H as -> _. rewrite Ascii.eqb_refl in E. discriminate.
        -- injection H as -> ->. unfold absent in Hpre. simpl in Hpre.
           apply andb_true_iff in Hpre. destruct Hpre as [_ Hpre].
           exists pre, mid, post. auto.
Qed.

End RegionFacts.

Lemma extract_json_refines (json_loads : string -> option value) (text : string) :
  extract_json json_loads text = extract_json_spec json_loads text.
Proof.
  unfold extract_json, extract_json_spec.
  rewrite <- (RegionFacts.search_region "{" "}" text).
  rewrite <- (RegionFacts.search_region "[" "]" text).
  fold Re.obj_re Re.arr_re.
  destruct text as [|x t]; [reflexivity|]. cbn [nonempty negb].
  destruct (Re.search Re.obj_re _) as [obj|];
    destruct (Re.search Re.arr_re _) as [arr|]; cbn [option_map];
    repeat match goal with |- context [json_loads ?m] => destruct (json_loads m) end;
    reflexivity.
Qed.

(** C3 -- On any text [extract_json] returns the JSON parse of the
    first non-greedy brace match when that parses, otherwise the parse
    of the first non-greedy bracket match when that parses, otherwise
    [None]; the first match of [re.search] is the region that opens at
    the first opening character and closes at the nearest closing one
    after it.  On the text with the result [{"a": 1}] between prose it
    returns that object, and on the unterminated text it returns
    [None]. *)
Theorem extract_json_first_region :
  (forall (json_loads : string -> option value) (text : string),
      extract_json json_loads text = extract_json_spec json_loads text)
  /\ (forall text : string,
         option_map Re.group (Re.search Re.obj_re text) = first_region "{" "}" text
         /\ option_map Re.group (Re.search Re.arr_re text) = first_region "[" "]" text)
  /\ (forall (o c : ascii) (s m : string),
         first_region o c s = Some m <->
         exists pre mid post,
           s = pre ++ String o (mid ++ String c post)
           /\ absent o pre /\ absent c mid /\ m = String o (mid ++ String c ""))
  /\ (forall (json_loads : string -> option value) (v : value),
         json_loads ("{" ++ quoted "a" ++ ": 1}") = Some v ->
         extract_json json_loads
           ("Here is the result: {" ++ quoted "a" ++ ": 1} done") = v)
  /\ extract_json JsonRef.loads
       ("Here is the result: {" ++ quoted "a" ++ ": 1} done")
     = VDict [("a", VInt 1)]
  /\ (forall json_loads : string -> option value,
         extract_json json_loads ("{" ++ quoted "a" ++ ": 1") = VNone).
Proof.
  split; [exact extract_json_refines|].
  split; [intros text; split; apply RegionFacts.search_region|].
  split; [exact RegionFacts.first_region_spec|].
  split; [|split].
  - intros json_loads v H. rewrite extract_json_refines.
    unfold extract_json_spec.
    replace (first_region "{" "}" ("Here is the result: {" ++ quoted "a" ++ ": 1} done"))
      with (Some ("{" ++ quoted "a" ++ ": 1}")) by reflexivity.
    now rewrite H.
  - reflexivity.
  - intros json_loads. rewrite extract_json_refines. reflexivity.
Qed.

Lemma extract_json_first_region_witness :
  extract_json JsonRef.loads
    ("Here is the result: {" ++ quoted "a" ++ ": 1} done")
  = VDict [("a", VInt 1)].
Proof.
  apply (proj1 (proj2 (proj2 (proj2 extract_json_first_region))) JsonRef.loads).
  vm_compute. reflexivity.
Defined.

(** ** gen_questions *)

Lemma run_lift {A} (m : model) (r : result A) : run m (lift r) = r.
Proof. destruct r; reflexivity. Qed.

Lemma run_gen_questions (json_loads : string -> option value)
      (json_dumps_indent2 : value -> string) (resume : value) (num : Z) (m : model) :
  run m (gen_questions json_loads json_dumps_indent2 resume num)
  = match extract_json json_loads
            (reply m (questions_prompt json_dumps_indent2 resume num) 800 (7 # 10)) with
    | VList questions =>
        match assign_ids 0 questions with
        | Ok questions' => Ok (VList (slice_to num questions'))
        | Raise e => Raise e
        end
    | _ => Ok (VList [])
    end.
Proof.
  unfold gen_questions. rewrite run_bind, run_generate.
  unfold default_max_tokens, default_temp.
  destruct (extract_json json_loads _); try reflexivity.
  rewrite run_bind, run_lift. destruct (assign_ids 0 items); reflexivity.
Qed.

Lemma dict_get_set (key : string) (v : value) (d : dict) :
  dict_get key (dict_set key v d) = v.
Proof.
  unfold dict_get. induction d as [|[k w] d IH]; simpl.
  - now rewrite String.eqb_refl.
  - destruct (String.eqb k key) eqn:E; simpl; rewrite E; [reflexivity | exact IH].
Qed.

Lemma assign_ids_length (questions : list value) :
  forall i items, assign_ids i questions = Ok items ->
                  List.length items = List.length questions.
Proof.
  induction questions as [|q rest IH]; intros i items H; simpl in H.
  - injection H as <-. reflexivity.
  - destruct q; try discriminate.
    simpl in H. destruct (assign_ids (i + 1) rest) as [rest'|] eqn:E; [|discriminate].
    injection H as <-. simpl. f_equal. eauto.
Qed.

Lemma assign_ids_dicts (questions : list value) :
  Forall is_dict questions ->
  forall i, exists items,
    assign_ids i questions = Ok items
    /\ forall j item,
         nth_error items j = Some item ->
         exists d, nth_error questions j = Some (VDict d)
                   /\ item = VDict (dict_set "id" (VInt (i + Z.of_nat j + 1)) d).
Proof.
  induction 1 as [|q rest Hq Hrest IH]; intros i.
  - exists []. split; [reflexivity|]. intros [|j] item H; discriminate.
  - destruct q; try contradiction.
    destruct (IH (i + 1)%Z) as (rest' & E & Hnth).
    exists (VDict (dict_set "id" (VInt (i + 1)) items) :: rest').
    split; [simpl; now rewrite E|].
    intros [|j] item H; simpl in H.
    + injection H as <-. exists items. split; [reflexivity|].
      now rewrite Z.add_0_r.
    + destruct (Hnth _ _ H) as (d & Hd & ->). exists d. split; [exact Hd|].
      do 3 f_equal. lia.
Qed.

Lemma nth_error_firstn_some {A} (n : nat) (l : list A) (j : nat) (x : A) :
  nth_error (firstn n l) j = Some x -> nth_error l j = Some x.
Proof.
  revert l j; induction n as [|n IH]; intros l j H.
  - destruct j; discriminate.
  - destruct l as [|y l]; [destruct j; discriminate|].
    destruct j; simpl in *; auto.
Qed.

Lemma slice_to_nonneg {A} (num : Z) (l : list A) :
  (0 <= num)%Z -> slice_to num l = firstn (Z.to_nat num) l.
Proof. intros H. unfold slice_to. apply Z.leb_le in H. now rewrite H. Qed.

(** C4 -- The claim fails on the code by a missed case.  When the
    model's reply is a JSON array of strings, [extract_json] yields a
    list, the loop that overwrites the ids raises [TypeError] on its
    first item, and [gen_questions] returns nothing, where the claim
    promises a list of at most [num] items.  The other paths degrade
    silently: a reply that is no list gives the empty list. *)
Theorem gen_questions_list_of_strings :
  let output := "[" ++ quoted "Why Python?" ++ ", " ++ quoted "Why Docker?" ++ "]" in
  extract_json JsonRef.loads (reply (constant_model output)
                                (questions_prompt dumps_empty (VDict []) 5)
                                800 (7 # 10))
  = VList [VStr "Why Python?"; VStr "Why Docker?"]
  /\ run (constant_model output)
         (gen_questions JsonRef.loads dumps_empty (VDict []) 5)
     = Raise (Exn TypeError "'str' object does not support item assignment")
  /\ ~ gen_questions_claim JsonRef.loads dumps_empty (VDict []) 5
        (constant_model output)
  /\ run (constant_model "no questions, sorry")
         (gen_questions JsonRef.loads dumps_empty (VDict []) 5)
     = Ok (VList []).
Proof.
  intros output.
  assert (E : run (constant_model output)
                  (gen_questions JsonRef.loads dumps_empty (VDict []) 5)
              = Raise (Exn TypeError "'str' object does not support item assignment"))
    by (vm_compute; reflexivity).
  split; [vm_compute; reflexivity|]. split; [exact E|].
  split; [|vm_compute; reflexivity].
  intros (items & Hrun & _). rewrite E in Hrun. discriminate.
Qed.

(** X27 -- For every resume, every count [num >= 0] and every model:
    when JSON extraction of the reply yields a list whose items are all
    objects, [gen_questions] returns the first [min num len] of them,
    each unchanged but for its id field, which is its 1-based position
    whatever id the model supplied or omitted; when extraction yields
    no list, it returns the empty list; and whatever it returns has at
    most [num] items. *)
Theorem gen_questions_positional_ids :
  forall (json_loads : string -> option value)
         (json_dumps_indent2 : value -> string)
         (resume : value) (num : Z) (m : model),
    (0 <= num)%Z ->
    let response :=
      reply m (questions_prompt json_dumps_indent2 resume num) 800 (7 # 10) in
    let outcome := run m (gen_questions json_loads json_dumps_indent2 resume num) in
    (forall qs,
        extract_json json_loads response = VList qs ->
        Forall is_dict qs ->
        exists items,
          outcome = Ok (VList items)
          /\ List.length items = Nat.min (Z.to_nat num) (List.length qs)
          /\ forall i item,
               nth_error items i = Some item ->
               field "id" item = VInt (Z.of_nat i + 1)
               /\ exists d, nth_error qs i = Some (VDict d)
                            /\ item = VDict (dict_set "id" (VInt (Z.of_nat i + 1)) d))
    /\ ((forall qs, extract_json json_loads response <> VList qs) ->
        outcome = Ok (VList []))
    /\ (forall v, outcome = Ok v ->
                  exists items, v = VList items
                                /\ (Z.of_nat (List.length items) <= num)%Z).
Proof.
  intros json_loads json_dumps_indent2 resume num m Hnum response outcome.
  subst outcome response. rewrite run_gen_questions.
  split; [|split].
  - intros qs -> Hall.
    destruct (assign_ids_dicts qs Hall 0%Z) as (items & E & Hnth).
    rewrite E. exists (slice_to num items). split; [reflexivity|].
    rewrite slice_to_nonneg by assumption. split.
    + rewrite length_firstn. now rewrite (assign_ids_length _ _ _ E).
    + intros i item H. apply nth_error_firstn_some in H.
      destruct (Hnth _ _ H) as (d & Hd & ->). split.
      * simpl. now rewrite dict_get_set.
      * exists d. auto.
  - intros H. destruct (extract_json json_loads _); try reflexivity.
    now destruct (H items).
  - intros v H.
    assert (Hempty : Ok (VList []) = Ok v ->
                     exists items, v = VList items
                                   /\ (Z.of_nat (List.length items) <= num)%Z).
    { intros E. injection E as <-. exists []. simpl. split; [reflexivity | lia]. }
    destruct (extract_json json_loads _); auto.
    destruct (assign_ids 0 items) as [items'|]; [|discriminate].
    injection H as <-. exists (slice_to num items'). split; [reflexivity|].
    rewrite slice_to_nonneg by assumption. rewrite length_firstn. lia.
Qed.

Lemma gen_questions_positional_ids_witness :
  exists items,
    run (constant_model nested_questions_output)
        (gen_questions JsonRef.loads dumps_empty (VDict []) 5)
    = Ok (VList items)
    /\ List.length items = 2
    /\ forall i item,
         nth_error items i = Some item ->
         field "id" item = VInt (Z.of_nat i + 1)
         /\ exists d,
              nth_error nested_questions i = Some (VDict d)
              /\ item = VDict (dict_set "id" (VInt (Z.of_nat i + 1)) d).
Proof.
  apply (proj1 (gen_questions_positional_ids JsonRef.loads dumps_empty (VDict []) 5
                  (constant_model nested_questions_output) ltac:(lia))
               nested_questions).
  - vm_compute. reflexivity.
  - repeat constructor.
Defined.

(** An array of flat objects, the format the prompt asks for, never
    reaches the list branch: the first brace match is the first object,
    it parses to a dict, and [gen_questions] returns the empty list. *)
Example gen_questions_flat_array :
  extract_json JsonRef.loads flat_questions_output
  = VDict [("id", VInt 1); ("question", VStr "Why Python?"); ("focus", VStr "python")]
  /\ run (constant_model flat_questions_output)
         (gen_questions JsonRef.loads dumps_empty (VDict []) 5)
     = Ok (VList []).
Proof. split; vm_compute; reflexivity. Qed.

(** ** extract_resume_basic and the fallback of extract_resume *)

Lemma search_has_match (r : Re.regex) (text : string) (f : Re.found) :
  Re.search r text = Some f -> Re.has_match r text.
Proof.
  intros H. apply ReFacts.search_leftmost in H. destruct H as [H _].
  exists (Re.before f), (Re.group f). exact H.
Qed.




Lemma extract_resume_basic_eq (text : string) :
  extract_resume_basic text
  = VDict [("name", VStr match name_line text with
                         | Some line => line
                         | None => "Unknown"
                         end);
           ("email", VStr match Re.search Re.email_re text with
                          | Some m => Re.group m
                          | None => ""
                          end);
           ("phone", VStr match Re.search Re.phone_re text with
                          | Some m => Re.group m
                          | None => ""
                          end);
           ("skills", VList (map VStr (found_skills text)));
           ("experience", VList []); ("projects", VList [])].
Proof.
  unfold extract_resume_basic.
  destruct (Re.search Re.email_re text);
    destruct (Re.search Re.phone_re text);
    destruct (name_line text); reflexivity.
Qed.

(** The fallback on the sample resume. *)
Example extract_resume_basic_sample :
  extract_resume_basic sample_resume_text
  = VDict [("name", VStr "Jane Doe"); ("email", VStr "jane.doe@example.com");
           ("phone", VStr "+1 (555) 123-4567");
           ("skills", VList [VStr "Python"; VStr "Sql"; VStr "Aws";
                             VStr "Machine Learning"]);
           ("experience", VList []); ("projects", VList [])].
Proof. vm_compute. reflexivity. Qed.

(** A model output whose name field is empty falls back as well; one
    with a name is returned as it is. *)
Example extract_resume_empty_name :
  run (constant_model ("{" ++ quoted "name" ++ ": " ++ quoted "" ++ "}"))
      (extract_resume JsonRef.loads (BytesIO (one_page_pdf sample_resume_text)))
  = Ok (extract_resume_basic sample_resume_text)
  /\ run (constant_model ("{" ++ quoted "name" ++ ": " ++ quoted "Jane" ++ "}"))
         (extract_resume JsonRef.loads (BytesIO (one_page_pdf sample_resume_text)))
     = Ok (VDict [("name", VStr "Jane")]).
Proof. split; vm_compute; reflexivity. Qed.

(* ================================================================== *)
(** * Further properties of the program *)

(** ** [strip] *)

Module StripFacts.

Import StrFacts.

Lemma last_char_cons (p q : option ascii) (x : ascii) (r : string) :
  Re.last_char p (String x r) = Re.last_char q (String x r).
Proof. reflexivity. Qed.

Lemma lstrip_first (s : string) (c : ascii) :
  first_char (lstrip s) = Some c -> isspace c = false.
Proof.
  induction s as [|x s IH]; simpl; [discriminate|].
  destruct (isspace x) eqn:E; [exact IH|].
  simpl. intros H. injection H as <-. exact E.
Qed.

Lemma rstrip_final (s : string) (c : ascii) :
  final_char (rstrip s) = Some c -> isspace c = false.
Proof.
  unfold final_char. induction s as [|x s IH]; simpl; [discriminate|].
  destruct (rstrip s) as [|y r] eqn:E.
  - destruct (isspace x) eqn:Ex; simpl; [discriminate|].
    intros H. injection H as <-. exact Ex.
  - simpl. simpl in IH. exact IH.
Qed.

Lemma rstrip_first (s : string) (c : ascii) :
  first_char (rstrip s) = Some c -> first_char s = Some c.
Proof.
  destruct s as [|x s]; simpl; [discriminate|].
  destruct (rstrip s); [destruct (isspace x)|]; simpl; congruence.
Qed.

Lemma strip_trimmed (s : string) : trimmed (strip s).
Proof.
  unfold strip. split; intros c H.
  - apply rstrip_first in H. eapply lstrip_first; eauto.
  - eapply rstrip_final; eauto.
Qed.

Lemma rstrip_fixed (s : string) :
  (forall c, final_char s = Some c -> isspace c = false) -> rstrip s = s.
Proof.
  unfold final_char. induction s as [|x s IH]; intros H; simpl; [reflexivity|].
  destruct s as [|y t].
  - simpl. rewrite (H x eq_refl). reflexivity.
  - rewrite IH; [reflexivity|]. intros c Hc. apply H. exact Hc.
Qed.

Lemma trimmed_strip (s : string) : trimmed s -> strip s = s.
Proof.
  intros [Hf Hl]. unfold strip.
  assert (E : lstrip s = s).
  { destruct s as [|x s]; simpl; [reflexivity|]. now rewrite (Hf x eq_refl). }
  rewrite E. now apply rstrip_fixed.
Qed.

Lemma strip_idempotent (s : string) : strip (strip s) = strip s.
Proof. apply trimmed_strip, strip_trimmed. Qed.

Lemma lstrip_blank (s : string) : lstrip s = "" <-> blank s.
Proof.
  unfold blank. induction s as [|x s IH]; simpl; [tauto|].
  destruct (isspace x); simpl; [exact IH|]. split; discriminate.
Qed.

Lemma rstrip_empty (s : string) :
  rstrip s = "" -> (forall c, first_char s = Some c -> isspace c = true).
Proof.
  destruct s as [|x s]; simpl; [discriminate|].
  destruct (rstrip s); [|discriminate].
  destruct (isspace x) eqn:E; [|discriminate].
  intros _ c H. injection H as <-. exact E.
Qed.

(** [strip] leaves nothing exactly when the text is blank. *)
Lemma strip_blank (s : string) : strip s = "" <-> blank s.
Proof.
  rewrite <- lstrip_blank. unfold strip. split.
  - intros H. destruct (lstrip s) as [|x r] eqn:E; [reflexivity|].
    pose proof (rstrip_empty _ H x eq_refl) as Hx.
    assert (Hn : isspace x = false) by (apply (lstrip_first s); now rewrite E).
    congruence.
  - intros ->. reflexivity.
Qed.

Lemma lstrip_suffix (s : string) : exists a, s = a ++ lstrip s.
Proof.
  induction s as [|x s [a IH]]; simpl; [now exists ""|].
  destruct (isspace x).
  - exists (String x a). simpl. now rewrite <- IH.
  - now exists "".
Qed.

Lemma rstrip_prefix (s : string) : exists b, s = rstrip s ++ b.
Proof.
  induction s as [|x s [b IH]]; simpl; [now exists ""|].
  destruct (rstrip s) as [|y r].
  - destruct (isspace x).
    + now exists (String x s).
    + exists s. reflexivity.
  - exists b. simpl. simpl in IH. now rewrite <- IH.
Qed.

Lemma strip_substring (s : string) : substring_of (strip s) s.
Proof.
  unfold substring_of, strip.
  destruct (lstrip_suffix s) as [a Ha].
  destruct (rstrip_prefix (lstrip s)) as [b Hb].
  exists a, b. now rewrite <- Hb.
Qed.

Lemma substring_of_trans (a b c : string) :
  substring_of a b -> substring_of b c -> substring_of a c.
Proof.
  intros (p1 & q1 & ->) (p2 & q2 & ->).
  exists (p2 ++ p1), (q1 ++ q2). now rewrite !app_assoc.
Qed.

Lemma contains_substring (a b : string) :
  contains a b = true <-> substring_of a b.
Proof. apply contains_app. Qed.

End StripFacts.

(** ** generate: what is kept of the decoded text *)

Module MarkerFacts.

Import StrFacts StripFacts.

Lemma last_piece_from_scan (sep cur : string) (c : ascii) (s : string) :
  last_piece_from sep 0 cur (String c s)
  = if prefix sep (String c s)
    then last_piece_from sep (String.length sep - 1) "" s
    else last_piece_from sep 0 (cur ++ String c "") s.
Proof. reflexivity. Qed.

Lemma last_piece_from_skip (sep cur : string) (k : nat) (c : ascii) (s : string) :
  last_piece_from sep (S k) cur (String c s) = last_piece_from sep k cur s.
Proof. reflexivity. Qed.

Lemma contains_false_cons (sep : string) (c : ascii) (s : string) :
  contains sep (String c s) = false ->
  prefix sep (String c s) = false /\ contains sep s = false.
Proof.
  rewrite contains_cons. destruct (prefix sep (String c s)); [discriminate | auto].
Qed.

(** Without an occurrence of the separator nothing is cut. *)
Lemma last_piece_from_none (sep : string) :
  forall s cur, contains sep s = false -> last_piece_from sep 0 cur s = cur ++ s.
Proof.
  induction s as [|c s IH]; intros cur H.
  - simpl. now rewrite app_nil_r.
  - apply contains_false_cons in H. destruct H as [Hp Hc].
    rewrite last_piece_from_scan, Hp, IH by assumption.
    now rewrite app_assoc.
Qed.

Lemma app_snoc_inv (cur a b : string) (c : ascii) :
  cur ++ String c "" = a ++ b -> b <> "" ->
  exists b0, b = b0 ++ String c "" /\ cur = a ++ b0.
Proof.
  revert cur; induction a as [|x a IH]; intros cur H Hb.
  - exists cur. auto.
  - destruct cur as [|y cur]; simpl in H.
    + injection H as _ H. destruct a; [simpl in H; congruence | discriminate].
    + injection H as -> H. destruct (IH _ H Hb) as (b0 & -> & ->).
      exists b0. auto.
Qed.

(** The piece after the last separator holds no separator. *)
Lemma last_piece_from_clean (sep : string) :
  sep <> "" ->
  forall s skip cur,
    (0 < skip -> cur = "") ->
    (forall a b, cur = a ++ b -> b <> "" -> prefix sep (b ++ s) = false) ->
    contains sep (last_piece_from sep skip cur s) = false.
Proof.
  intros Hsep.
  assert (Hempty : forall s a b, "" = a ++ b -> b <> "" -> prefix sep (b ++ s) = false).
  { intros s a b H Hb. destruct a; [simpl in H; congruence | discriminate]. }
  induction s as [|c s IH]; intros skip cur Hskip Hinv.
  - simpl. destruct (contains sep cur) eqn:E; [|reflexivity].
    apply contains_app in E. destruct E as (pre & post & E).
    assert (Hn : sep ++ post <> "") by (destruct sep; [congruence | discriminate]).
    pose proof (Hinv pre (sep ++ post) E Hn) as Hp.
    assert (Ht : prefix sep ((sep ++ post) ++ "") = true).
    { apply prefix_app. exists (post ++ ""). now rewrite app_assoc. }
    congruence.
  - destruct skip as [|k].
    + rewrite last_piece_from_scan. destruct (prefix sep (String c s)) eqn:Hp.
      * apply IH; [reflexivity | apply Hempty].
      * apply IH; [lia|].
        intros a b E Hb. destruct (app_snoc_inv _ _ _ _ E Hb) as (b0 & -> & ->).
        rewrite app_assoc. simpl. destruct b0 as [|y b0]; [exact Hp|].
        apply (Hinv a (String y b0)); [reflexivity | discriminate].
    + rewrite last_piece_from_skip. rewrite (Hskip ltac:(lia)).
      apply IH; [reflexivity | apply Hempty].
Qed.

Lemma last_piece_clean (sep s : string) :
  sep <> "" -> contains sep (last_piece sep s) = false.
Proof.
  intros Hsep. unfold last_piece. apply last_piece_from_clean.
  - exact Hsep.
  - lia.
  - intros a b H Hb. destruct a; [simpl in H; congruence | discriminate].
Qed.

Lemma not_contains_substring (sep u s : string) :
  substring_of u s -> contains sep s = false -> contains sep u = false.
Proof.
  intros Hu Hs. destruct (contains sep u) eqn:E; [|reflexivity].
  apply contains_substring in E.
  pose proof (proj2 (contains_substring sep s) (substring_of_trans _ _ _ E Hu)).
  congruence.
Qed.

(** The characters of the marker after its first one hold no "<": two
    occurrences of the marker cannot overlap. *)
Lemma overlap_free (w pre x rest : string) :
  absent "<" w -> pre ++ String "<" x = w ++ rest -> exists p, pre = w ++ p.
Proof.
  unfold absent. revert pre; induction w as [|y w IH]; intros pre Hw H.
  - now exists pre.
  - simpl in Hw. apply andb_true_iff in Hw. destruct Hw as [Hy Hw].
    destruct pre as [|z pre]; simpl in H.
    + injection H as <- _. discriminate.
    + injection H as -> H. destruct (IH _ Hw H) as [p ->]. now exists p.
Qed.

Lemma last_piece_from_after (tail : string) :
  contains assistant_marker tail = false ->
  forall pre skip cur,
    skip <= String.length pre ->
    last_piece_from assistant_marker skip cur (pre ++ assistant_marker ++ tail) = tail.
Proof.
  intros Htail. induction pre as [|c pre IH]; intros skip cur Hskip.
  - assert (skip = 0) by (simpl in Hskip; lia). subst skip.
    change ("" ++ assistant_marker ++ tail)
      with (String "<" (marker_tail ++ tail)).
    rewrite last_piece_from_scan.
    assert (Hp : prefix assistant_marker (String "<" (marker_tail ++ tail)) = true).
    { apply prefix_app. now exists tail. }
    rewrite Hp. simpl. now apply last_piece_from_none.
  - destruct skip as [|k].
    + change (String c pre ++ assistant_marker ++ tail)
        with (String c (pre ++ assistant_marker ++ tail)).
      rewrite last_piece_from_scan.
      destruct (prefix assistant_marker _) eqn:Hp.
      * apply prefix_app in Hp. destruct Hp as [rest Hp].
        change (assistant_marker ++ rest) with (String "<" (marker_tail ++ rest)) in Hp.
        injection Hp as _ Hp.
        change (assistant_marker ++ tail) with (String "<" (marker_tail ++ tail)) in Hp.
        destruct (overlap_free marker_tail pre _ rest eq_refl Hp) as [p Epre].
        apply IH. subst pre. simpl. lia.
      * apply IH. lia.
    + change (String c pre ++ assistant_marker ++ tail)
        with (String c (pre ++ assistant_marker ++ tail)).
      rewrite last_piece_from_skip. apply IH. simpl in Hskip. lia.
Qed.

End MarkerFacts.

(** X1 -- Whatever the model decodes, [generate] calls it exactly once
    and returns a text without white space at either end (stripping it
    again changes nothing). *)
Theorem generate_reply_is_trimmed :
  forall (m : model) (prompt : string) (max_tokens : Z) (temp : Q),
    exists text,
      run m (generate prompt max_tokens temp) = Ok text
      /\ model_calls m (generate prompt max_tokens temp) = 1
      /\ trimmed text
      /\ strip text = text.
Proof.
  intros m prompt max_tokens temp. exists (reply m prompt max_tokens temp).
  split; [reflexivity|]. split; [reflexivity|].
  unfold reply, after_marker. split.
  - apply StripFacts.strip_trimmed.
  - apply StripFacts.strip_idempotent.
Qed.

(** X2 -- When the decoded text holds the assistant marker, [generate]
    returns what follows the last marker, stripped: for a decoded text
    [pre ++ marker ++ tail] whose [tail] holds no marker the result is
    [strip tail], whatever [pre] is. *)
Theorem generate_keeps_text_after_last_marker :
  forall (m : model) (prompt : string) (max_tokens : Z) (temp : Q)
         (pre tail : string),
    m (chat_format prompt) max_tokens temp = pre ++ assistant_marker ++ tail ->
    contains assistant_marker tail = false ->
    run m (generate prompt max_tokens temp) = Ok (strip tail).
Proof.
  intros m prompt max_tokens temp pre tail Hm Htail.
  rewrite run_generate. unfold reply, after_marker. rewrite Hm.
  assert (Hc : contains assistant_marker (pre ++ assistant_marker ++ tail) = true).
  { apply StrFacts.contains_app. now exists pre, tail. }
  rewrite Hc. unfold last_piece.
  rewrite (MarkerFacts.last_piece_from_after tail Htail pre 0 "") by lia.
  now rewrite StripFacts.strip_idempotent.
Qed.

Lemma generate_keeps_text_after_last_marker_witness :
  run (constant_model
         "<|user|> Hi <|assistant|> draft <|assistant|>  final answer ")
      (generate "Hi" 800 (7 # 10))
  = Ok "final answer".
Proof.
  apply (generate_keeps_text_after_last_marker
           (constant_model
              "<|user|> Hi <|assistant|> draft <|assistant|>  final answer ")
           "Hi" 800 (7 # 10)%Q "<|user|> Hi <|assistant|> draft " "  final answer ").
  - reflexivity.
  - vm_compute. reflexivity.
Defined.

(** X3 -- The text [generate] returns never holds the assistant marker,
    and when the decoded text holds no marker it is returned stripped
    and otherwise unchanged. *)
Theorem generate_reply_has_no_marker :
  forall (m : model) (prompt : string) (max_tokens : Z) (temp : Q),
    let decoded := m (chat_format prompt) max_tokens temp in
    exists text,
      run m (generate prompt max_tokens temp) = Ok text
      /\ contains assistant_marker text = false
      /\ (contains assistant_marker decoded = false -> text = strip decoded).
Proof.
  intros m prompt max_tokens temp decoded.
  exists (reply m prompt max_tokens temp). split; [reflexivity|].
  unfold reply, after_marker. fold decoded.
  destruct (contains assistant_marker decoded) eqn:E.
  - split; [|discriminate].
    apply (MarkerFacts.not_contains_substring _ _ (last_piece assistant_marker decoded)).
    + eapply StripFacts.substring_of_trans; apply StripFacts.strip_substring.
    + apply MarkerFacts.last_piece_clean. discriminate.
  - split; [|reflexivity].
    apply (MarkerFacts.not_contains_substring _ _ decoded); [|exact E].
    apply StripFacts.strip_substring.
Qed.

Lemma generate_reply_has_no_marker_witness :
  exists text,
    run (constant_model "  plain answer  ") (generate "Hi" 800 (7 # 10)) = Ok text
    /\ contains assistant_marker text = false
    /\ (contains assistant_marker "  plain answer  " = false
        -> text = strip "  plain answer  ").
Proof.
  exact (generate_reply_has_no_marker (constant_model "  plain answer  ")
           "Hi" 800 (7 # 10)%Q).
Defined.

(** ** extract_json: prose around the JSON, and truncated output *)

Lemma absent_app (x : ascii) (a b : string) :
  absent x (a ++ b) <-> absent x a /\ absent x b.
Proof.
  unfold absent. induction a as [|y a IH]; simpl.
  - tauto.
  - rewrite andb_true_iff, IH, andb_true_iff. tauto.
Qed.

Lemma absent_cons (x y : ascii) (s : string) :
  absent x (String y s) <-> y <> x /\ absent x s.
Proof.
  unfold absent. simpl. rewrite andb_true_iff, negb_true_iff.
  now rewrite Ascii.eqb_neq.
Qed.

Lemma first_region_absent (o c : ascii) (s : string) :
  absent c s -> first_region o c s = None.
Proof.
  intros H. destruct (first_region o c s) as [m|] eqn:E; [|reflexivity].
  apply RegionFacts.first_region_spec in E.
  destruct E as (pre & mid & post & -> & _ & _ & _).
  apply absent_app in H. destruct H as [_ H].
  apply absent_cons in H. destruct H as [_ H].
  apply absent_app in H. destruct H as [_ H].
  apply absent_cons in H. destruct H as [H _]. congruence.
Qed.

Lemma first_region_found (o c : ascii) (pre mid post : string) :
  absent o pre -> absent c mid ->
  first_region o c (pre ++ String o (mid ++ String c post))
  = Some (String o (mid ++ String c "")).
Proof.
  intros Hpre Hmid. apply RegionFacts.first_region_spec.
  exists pre, mid, post. auto.
Qed.

(** X4 -- JSON wrapped in prose is found: when the text before the
    object holds no opening brace and the object holds no closing brace
    but its last character, [extract_json] returns the parse of the
    object, whatever follows it.  The same holds for an array in a text
    that holds no closing brace at all. *)
Theorem extract_json_ignores_prose :
  forall (json_loads : string -> option value) (pre mid post : string) (v : value),
    (absent "{" pre -> absent "}" mid ->
     json_loads ("{" ++ mid ++ "}") = Some v ->
     extract_json json_loads (pre ++ "{" ++ mid ++ "}" ++ post) = v)
    /\ (absent "[" pre -> absent "]" mid ->
        absent "}" (pre ++ "[" ++ mid ++ "]" ++ post) ->
        json_loads ("[" ++ mid ++ "]") = Some v ->
        extract_json json_loads (pre ++ "[" ++ mid ++ "]" ++ post) = v).
Proof.
  intros json_loads pre mid post v. split.
  - intros Hpre Hmid Hv. rewrite extract_json_refines. unfold extract_json_spec.
    change (pre ++ "{" ++ mid ++ "}" ++ post)
      with (pre ++ String "{" (mid ++ String "}" post)).
    rewrite (first_region_found "{" "}" pre mid post Hpre Hmid).
    change (String "{" (mid ++ String "}" "")) with ("{" ++ mid ++ "}").
    now rewrite Hv.
  - intros Hpre Hmid Hbrace Hv. rewrite extract_json_refines.
    unfold extract_json_spec.
    rewrite (first_region_absent "{" "}" _ Hbrace).
    change (pre ++ "[" ++ mid ++ "]" ++ post)
      with (pre ++ String "[" (mid ++ String "]" post)).
    rewrite (first_region_found "[" "]" pre mid post Hpre Hmid).
    change (String "[" (mid ++ String "]" "")) with ("[" ++ mid ++ "]").
    now rewrite Hv.
Qed.

Lemma extract_json_ignores_prose_witness :
  extract_json JsonRef.loads
    ("Sure, here it is: " ++ "{" ++ (quoted "total_score" ++ ": 72") ++ "}"
       ++ " Hope that helps.")
  = VDict [("total_score", VInt 72)]
  /\ extract_json JsonRef.loads
       ("Scores: " ++ "[" ++ "1, 2" ++ "]" ++ " (two items)")
     = VList [VInt 1; VInt 2].
Proof.
  split.
  - apply (proj1 (extract_json_ignores_prose JsonRef.loads
                    "Sure, here it is: " (quoted "total_score" ++ ": 72")
                    " Hope that helps." (VDict [("total_score", VInt 72)])));
      vm_compute; reflexivity.
  - apply (proj2 (extract_json_ignores_prose JsonRef.loads
                    "Scores: " "1, 2" " (two items)" (VList [VInt 1; VInt 2])));
      vm_compute; reflexivity.
Defined.

(** X5 -- Truncated output is discarded: a text that holds neither a
    closing brace nor a closing bracket yields [None], whatever the
    JSON reader would make of it. *)
Theorem extract_json_truncated :
  forall (json_loads : string -> option value) (text : string),
    absent "}" text -> absent "]" text ->
    extract_json json_loads text = VNone.
Proof.
  intros json_loads text Hb Hk. rewrite extract_json_refines.
  unfold extract_json_spec.
  now rewrite (first_region_absent "{" "}" _ Hb), (first_region_absent "[" "]" _ Hk).
Qed.

Lemma extract_json_truncated_witness :
  extract_json (fun _ => Some (VInt 1))
    ("{" ++ quoted "technical_accuracy" ++ ": 8, " ++ quoted "feedback" ++ ": ")
  = VNone.
Proof.
  apply extract_json_truncated; vm_compute; reflexivity.
Defined.

(** ** gen_questions beyond the positional ids *)

Lemma model_calls_bind {A B} (m : model) (p : prog A) (f : A -> prog B) :
  model_calls m (bind p f)
  = model_calls m p + match run m p with
                      | Ok a => model_calls m (f a)
                      | Raise _ => 0
                      end.
Proof. induction p; simpl; auto. Qed.

Lemma model_calls_lift {A} (m : model) (r : result A) : model_calls m (lift r) = 0.
Proof. destruct r; reflexivity. Qed.

Lemma dict_get_set_other (key k : string) (v : value) (d : dict) :
  k <> key -> dict_get k (dict_set key v d) = dict_get k d.
Proof.
  intros Hk. unfold dict_get. induction d as [|[k0 w] d IH]; simpl.
  - destruct (String.eqb key k) eqn:E; [|reflexivity].
    apply String.eqb_eq in E. congruence.
  - destruct (String.eqb k0 key) eqn:E; simpl.
    + apply String.eqb_eq in E. subst k0.
      destruct (String.eqb key k) eqn:E2; [|reflexivity].
      apply String.eqb_eq in E2. congruence.
    + destruct (String.eqb k0 k); [reflexivity | exact IH].
Qed.

Lemma assign_ids_ok (questions : list value) :
  forall i items,
    assign_ids i questions = Ok items ->
    forall j item,
      nth_error items j = Some item ->
      exists d, nth_error questions j = Some (VDict d)
                /\ item = VDict (dict_set "id" (VInt (i + Z.of_nat j + 1)) d).
Proof.
  induction questions as [|q rest IH]; intros i items H j item Hj; simpl in H.
  - injection H as <-. destruct j; discriminate.
  - destruct q; try discriminate. simpl in H.
    destruct (assign_ids (i + 1) rest) as [rest'|] eqn:E; [|discriminate].
    injection H as <-. destruct j as [|j]; simpl in Hj.
    + injection Hj as <-. exists items0. split; [reflexivity|].
      now rewrite Z.add_0_r.
    + destruct (IH _ _ E _ _ Hj) as (d & Hd & ->). exists d. split; [exact Hd|].
      do 3 f_equal. lia.
Qed.

Lemma assign_ids_raises (questions : list value) :
  forall i e, assign_ids i questions = Raise e -> exn_class e = TypeError.
Proof.
  induction questions as [|q rest IH]; intros i e H; simpl in H; [discriminate|].
  destruct q; simpl in H; try (injection H as <-; reflexivity).
  destruct (assign_ids (i + 1) rest) eqn:E; [discriminate|].
  injection H as <-. eauto.
Qed.

Lemma nth_error_slice_to {A} (num : Z) (l : list A) (j : nat) (x : A) :
  nth_error (slice_to num l) j = Some x -> nth_error l j = Some x.
Proof.
  unfold slice_to. destruct (0 <=? num)%Z; apply nth_error_firstn_some.
Qed.

(** X6 -- Whenever the first brace region of the model output parses
    to an object, [gen_questions] returns the empty list: an array of
    flat question objects, the format its prompt asks for, is read as
    its first object and no question is returned. *)
Theorem gen_questions_object_first :
  forall (json_loads : string -> option value)
         (json_dumps_indent2 : value -> string)
         (resume : value) (num : Z) (m : model) (region : string) (d : dict),
    first_region "{" "}"
      (reply m (questions_prompt json_dumps_indent2 resume num) 800 (7 # 10))
    = Some region ->
    json_loads region = Some (VDict d) ->
    run m (gen_questions json_loads json_dumps_indent2 resume num) = Ok (VList []).
Proof.
  intros json_loads json_dumps_indent2 resume num m region d Hr Hd.
  rewrite run_gen_questions, extract_json_refines. unfold extract_json_spec.
  now rewrite Hr, Hd.
Qed.

Lemma gen_questions_object_first_witness :
  run (constant_model flat_questions_output)
      (gen_questions JsonRef.loads dumps_empty (VDict []) 5)
  = Ok (VList []).
Proof.
  apply (gen_questions_object_first JsonRef.loads dumps_empty (VDict []) 5
           (constant_model flat_questions_output)
           ("{" ++ quoted "id" ++ ":1," ++ quoted "question" ++ ":"
                ++ quoted "Why Python?" ++ "," ++ quoted "focus" ++ ":"
                ++ quoted "python" ++ "}")
           [("id", VInt 1); ("question", VStr "Why Python?");
            ("focus", VStr "python")]);
    vm_compute; reflexivity.
Defined.

Lemma gen_questions_shape (json_loads : string -> option value)
      (json_dumps_indent2 : value -> string)
      (resume : value) (num : Z) (m : model) :
  model_calls m (gen_questions json_loads json_dumps_indent2 resume num) = 1
  /\ (forall e, run m (gen_questions json_loads json_dumps_indent2 resume num)
                = Raise e -> exn_class e = TypeError)
  /\ (forall v, run m (gen_questions json_loads json_dumps_indent2 resume num)
                = Ok v ->
                exists items, v = VList items /\ Forall is_dict items).
Proof.
  split; [|split].
  - unfold gen_questions. rewrite model_calls_bind, run_generate. simpl.
    destruct (extract_json json_loads _); try reflexivity.
    rewrite model_calls_bind, model_calls_lift, run_lift.
    destruct (assign_ids 0 items); reflexivity.
  - intros e. rewrite run_gen_questions.
    destruct (extract_json json_loads _); try discriminate.
    destruct (assign_ids 0 items) eqn:E; [discriminate|].
    intros H. injection H as <-. eapply assign_ids_raises; eauto.
  - intros v. rewrite run_gen_questions.
    assert (Hempty : Ok (VList []) = Ok v ->
                     exists items, v = VList items /\ Forall is_dict items).
    { intros H. injection H as <-. exists []. auto. }
    destruct (extract_json json_loads _); auto.
    destruct (assign_ids 0 items) as [items'|] eqn:E; [|discriminate].
    intros H. injection H as <-. exists (slice_to num items').
    split; [reflexivity|]. apply Forall_forall. intros x Hx.
    apply In_nth_error in Hx. destruct Hx as [j Hj].
    apply nth_error_slice_to in Hj.
    destruct (assign_ids_ok _ _ _ E _ _ Hj) as (d & _ & ->). exact I.
Qed.

(** X7 -- For every count, negative ones included, [gen_questions]
    calls the model exactly once; the only exception it raises is a
    [TypeError]; and whatever it returns is a list whose items are all
    objects. *)
Theorem gen_questions_outcomes :
  forall (json_loads : string -> option value)
         (json_dumps_indent2 : value -> string)
         (resume : value) (num : Z) (m : model),
    let p := gen_questions json_loads json_dumps_indent2 resume num in
    model_calls m p = 1
    /\ (forall e, run m p = Raise e -> exn_class e = TypeError)
    /\ (forall v, run m p = Ok v ->
                  exists items, v = VList items /\ Forall is_dict items).
Proof.
  intros json_loads json_dumps_indent2 resume num m p. subst p.
  apply gen_questions_shape.
Qed.

Lemma gen_questions_outcomes_witness :
  exists items,
    VList (slice_to 5 [VDict [("id", VInt 1); ("question", VStr "Why Python?");
                              ("meta", VDict [("level", VInt 1)])];
                       VDict [("question", VStr "Why Docker?"); ("id", VInt 2)]])
    = VList items
    /\ Forall is_dict items.
Proof.
  apply (proj2 (proj2 (gen_questions_outcomes JsonRef.loads dumps_empty (VDict []) 5
                         (constant_model nested_questions_output)))).
  vm_compute. reflexivity.
Defined.

(** X8 -- A returned question keeps every field the model gave it
    except id: the item at position [i] is built from the [i]-th parsed
    object, and every key other than "id" has the parsed value. *)
Theorem gen_questions_keeps_other_fields :
  forall (json_loads : string -> option value)
         (json_dumps_indent2 : value -> string)
         (resume : value) (num : Z) (m : model)
         (questions items : list value),
    extract_json json_loads
      (reply m (questions_prompt json_dumps_indent2 resume num) 800 (7 # 10))
    = VList questions ->
    run m (gen_questions json_loads json_dumps_indent2 resume num)
    = Ok (VList items) ->
    forall i item,
      nth_error items i = Some item ->
      exists d,
        nth_error questions i = Some (VDict d)
        /\ forall key, key <> "id" -> field key item = dict_get key d.
Proof.
  intros json_loads json_dumps_indent2 resume num m questions items Hq Hrun
         i item Hi.
  rewrite run_gen_questions, Hq in Hrun.
  destruct (assign_ids 0 questions) as [items'|] eqn:E; [|discriminate].
  injection Hrun as <-. apply nth_error_slice_to in Hi.
  destruct (assign_ids_ok _ _ _ E _ _ Hi) as (d & Hd & ->).
  exists d. split; [exact Hd|].
  intros key Hkey. simpl. now apply dict_get_set_other.
Qed.

Lemma gen_questions_keeps_other_fields_witness :
  exists d,
    nth_error nested_questions 0 = Some (VDict d)
    /\ forall key, key <> "id" ->
         field key (VDict [("id", VInt 1); ("question", VStr "Why Python?");
                           ("meta", VDict [("level", VInt 1)])])
         = dict_get key d.
Proof.
  apply (gen_questions_keeps_other_fields JsonRef.loads dumps_empty (VDict []) 5
           (constant_model nested_questions_output) nested_questions
           [VDict [("id", VInt 1); ("question", VStr "Why Python?");
                   ("meta", VDict [("level", VInt 1)])];
            VDict [("question", VStr "Why Docker?"); ("id", VInt 2)]]);
    vm_compute; reflexivity.
Defined.

(** X9 -- [/generate_questions] asks for five questions: whatever it
    returns is an object whose only field, questions, is a list of at
    most five objects; the only exception it lets through is a
    [TypeError]. *)
Theorem generate_questions_api_outcomes :
  forall (json_loads : string -> option value)
         (json_dumps_indent2 : value -> string) (resume : value) (m : model),
    let p := generate_questions_api json_loads json_dumps_indent2 resume in
    (forall v, run m p = Ok v ->
               exists items, v = VDict [("questions", VList items)]
                             /\ List.length items <= 5
                             /\ Forall is_dict items)
    /\ (forall e, run m p = Raise e -> exn_class e = TypeError).
Proof.
  intros json_loads json_dumps_indent2 resume m p. subst p.
  unfold generate_questions_api. rewrite run_bind.
  pose proof (gen_questions_shape json_loads json_dumps_indent2 resume 5 m)
    as (_ & Hraise & Hok).
  pose proof (run_gen_questions json_loads json_dumps_indent2 resume 5 m) as Hrun.
  destruct (run m (gen_questions json_loads json_dumps_indent2 resume 5))
    as [questions|e0] eqn:E.
  - split; [|discriminate]. intros v H. simpl in H. injection H as <-.
    destruct (Hok _ eq_refl) as (items & -> & Hall).
    exists items. split; [reflexivity|]. split; [|exact Hall].
    destruct (extract_json json_loads _).
    1-5,7: injection Hrun as ->; simpl; lia.
    destruct (assign_ids 0 items0); [|discriminate].
    injection Hrun as ->. rewrite slice_to_nonneg by lia. rewrite length_firstn. lia.
  - split; [discriminate|]. intros e H. injection H as <-. now apply Hraise.
Qed.

Lemma generate_questions_api_outcomes_witness :
  exists items,
    VDict [("questions", VList [])] = VDict [("questions", VList items)]
    /\ List.length items <= 5
    /\ Forall is_dict items.
Proof.
  apply (proj1 (generate_questions_api_outcomes JsonRef.loads dumps_empty (VDict [])
                  (constant_model flat_questions_output))).
  vm_compute. reflexivity.
Defined.

(** ** evaluate, gen_followup and the /answer endpoint *)

Lemma evaluate_calls (json_loads : string -> option value)
      (question answer : string) (m : model) :
  model_calls m (evaluate json_loads question answer) = 1.
Proof.
  unfold evaluate. rewrite model_calls_bind, run_generate. simpl.
  destruct (extract_json json_loads _); reflexivity.
Qed.

Lemma evaluate_returns (json_loads : string -> option value)
      (question answer : string) (m : model) :
  exists d, run m (evaluate json_loads question answer) = Ok (VDict d).
Proof.
  rewrite run_evaluate.
  destruct (extract_json json_loads _); unfold default_evaluation; eauto.
Qed.

(** X10 -- [evaluate] never raises: for every question, answer, model
    and JSON reader it calls the model exactly once and returns a
    dict. *)
Theorem evaluate_always_returns_dict :
  forall (json_loads : string -> option value) (question answer : string)
         (m : model),
    model_calls m (evaluate json_loads question answer) = 1
    /\ exists d, run m (evaluate json_loads question answer) = Ok (VDict d).
Proof.
  intros json_loads question answer m. split.
  - apply evaluate_calls.
  - apply evaluate_returns.
Qed.

(** X11 -- For an answer of at least 10 characters after trimming,
    [gen_followup] hands the prompt to the model once, with a budget of
    100 new tokens and temperature 0.7, and returns the model's reply,
    which has no white space at either end. *)
Theorem gen_followup_long_answer :
  forall (question answer : string) (m : model),
    10 <= String.length (strip answer) ->
    (exists k, gen_followup question answer
               = CallModel (chat_format (followup_prompt question answer))
                           100 (7 # 10) k)
    /\ model_calls m (gen_followup question answer) = 1
    /\ exists text, run m (gen_followup question answer) = Ok text /\ trimmed text.
Proof.
  intros question answer m H. unfold gen_followup.
  apply Nat.ltb_ge in H. rewrite H. split; [|split].
  - eexists. reflexivity.
  - reflexivity.
  - eexists. split; [reflexivity|].
    unfold after_marker. apply StripFacts.strip_trimmed.
Qed.

Lemma gen_followup_long_answer_witness :
  model_calls (constant_model "Which index did you use?")
    (gen_followup "How did you speed up the query?" "I added an index on the id.")
  = 1.
Proof.
  apply (gen_followup_long_answer "How did you speed up the query?"
           "I added an index on the id."
           (constant_model "Which index did you use?")).
  vm_compute. lia.
Defined.

(** X12 -- An answer made of white space only, however long, gets the
    canned follow-up without a call of the model. *)
Theorem gen_followup_blank_answer :
  forall question answer : string,
    blank answer ->
    gen_followup question answer = Return "Could you explain more?".
Proof.
  intros question answer H. unfold gen_followup.
  now rewrite (proj2 (StripFacts.strip_blank answer) H).
Qed.

Lemma gen_followup_blank_answer_witness :
  gen_followup "Why Python?" ("               " ++ nl ++ "      ")
  = Return "Could you explain more?".
Proof.
  apply gen_followup_blank_answer. vm_compute. reflexivity.
Defined.

(** X13 -- [/answer] never raises: it returns an object with a followup
    text and an evaluation dict.  It calls the model once when the
    trimmed answer has fewer than 10 characters (the follow-up is then
    the canned one) and twice otherwise. *)
Theorem answer_api_outcome :
  forall (json_loads : string -> option value) (question answer : string)
         (m : model),
    (exists followup d,
        run m (answer_api json_loads question answer)
        = Ok (VDict [("followup", VStr followup); ("evaluation", VDict d)])
        /\ (String.length (strip answer) < 10 ->
            followup = "Could you explain more?"))
    /\ model_calls m (answer_api json_loads question answer)
       = if (String.length (strip answer) <? 10)%nat then 1 else 2.
Proof.
  intros json_loads question answer m.
  pose proof (evaluate_calls json_loads question answer m) as Hcalls.
  destruct (evaluate_returns json_loads question answer m) as (d & Hd).
  assert (Hret : forall (A : Type) (a : A), run m (Return a) = Ok a) by reflexivity.
  assert (Hret0 : forall (A : Type) (a : A), model_calls m (Return a) = 0)
    by reflexivity.
  unfold answer_api. split.
  - rewrite run_bind. unfold gen_followup.
    destruct (String.length (strip answer) <? 10)%nat eqn:E.
    + rewrite Hret, run_bind, Hd. simpl. eauto.
    + rewrite run_generate, run_bind, Hd. simpl.
      eexists _, d. split; [reflexivity|].
      intros H. apply Nat.ltb_lt in H. congruence.
  - rewrite model_calls_bind. unfold gen_followup.
    destruct (String.length (strip answer) <? 10)%nat eqn:E.
    + rewrite Hret, Hret0, model_calls_bind, Hcalls, Hd. reflexivity.
    + rewrite run_generate, model_calls_bind, Hcalls, Hd. reflexivity.
Qed.

Lemma answer_api_outcome_witness :
  model_calls (constant_model "no json")
    (answer_api JsonRef.loads "Why Python?" "It is fun.")
  = 2.
Proof.
  exact (proj2 (answer_api_outcome JsonRef.loads "Why Python?" "It is fun."
                  (constant_model "no json"))).
Defined.

(** ** extract_text_from_pdf, extract_resume and /upload_resume *)

Lemma extract_text_from_pdf_eq (f : pdf_file) :
  extract_text_from_pdf f
  = strip (join (fitz_produced f ++ plumber_produced f)%list).
Proof.
  unfold extract_text_from_pdf.
  now rewrite plumber_pass_text, fitz_pass_text, join_app.
Qed.

(** X14 -- The extracted text never starts or ends with white space,
    and it is empty exactly when everything the two passes produced is
    white space: a PDF whose pages hold only blanks and line feeds
    counts as a PDF without text. *)
Theorem extract_text_from_pdf_trimmed :
  forall f : pdf_file,
    trimmed (extract_text_from_pdf f)
    /\ (extract_text_from_pdf f = ""
        <-> blank (join (fitz_produced f ++ plumber_produced f)%list)).
Proof.
  intros f. rewrite extract_text_from_pdf_eq. split.
  - apply StripFacts.strip_trimmed.
  - apply StripFacts.strip_blank.
Qed.

Lemma in_firstn {A} (n : nat) (l : list A) (x : A) : In x (firstn n l) -> In x l.
Proof.
  intros H. apply In_nth_error in H. destruct H as [j Hj].
  apply nth_error_firstn_some in Hj. eapply nth_error_In; eauto.
Qed.

Lemma stripped_lines_nonempty (text line : string) :
  In line (stripped_lines text) -> nonempty line = true /\ trimmed line.
Proof.
  unfold stripped_lines. intros H. apply in_map_iff in H.
  destruct H as (l & <- & Hl). apply filter_In in Hl. destruct Hl as [_ Hl].
  split; [exact Hl | apply StripFacts.strip_trimmed].
Qed.

Lemma name_line_nonempty (text line : string) :
  name_line text = Some line ->
  nonempty line = true /\ trimmed line /\ word_count line <= 4.
Proof.
  unfold name_line. intros H. apply find_some in H. destruct H as [Hin Hw].
  apply in_firstn in Hin. apply stripped_lines_nonempty in Hin.
  destruct Hin as [Hn Ht]. repeat split; auto; try apply Ht.
  now apply Nat.leb_le.
Qed.

Lemma basic_name_truthy (text : string) :
  exists d, extract_resume_basic text = VDict d
            /\ truthy (dict_get "name" d) = true.
Proof.
  rewrite extract_resume_basic_eq. eexists. split; [reflexivity|].
  unfold dict_get. simpl.
  destruct (name_line text) as [line|] eqn:E; [|reflexivity].
  now apply name_line_nonempty in E.
Qed.

Lemma run_catch {A} (m : model) (p : prog A) (h : exn -> prog A) :
  run m (catch p h) = match run m p with
                      | Ok a => Ok a
                      | Raise e => run m (h e)
                      end.
Proof. induction p; simpl; auto. Qed.

Lemma extract_resume_returns (json_loads : string -> option value)
      (f : pdf_file) (m : model) (v : value) :
  run m (extract_resume json_loads f) = Ok v ->
  30 <= String.length (extract_text_from_pdf f)
  /\ exists d, v = VDict d /\ truthy (dict_get "name" d) = true.
Proof.
  destruct (Nat.lt_ge_cases (String.length (extract_text_from_pdf f)) 30)
    as [Hlt|Hge].
  - rewrite (extract_resume_rejects json_loads f Hlt). discriminate.
  - rewrite (extract_resume_accepts json_loads f m Hge).
    intros H. split; [exact Hge|]. injection H as <-.
    destruct (basic_name_truthy (extract_text_from_pdf f)) as (d & Hd & Hname).
    rewrite Hd.
    destruct (extract_json json_loads _); eauto.
    destruct (truthy (dict_get "name" items)) eqn:T; eauto.
Qed.

Lemma extract_resume_raises (json_loads : string -> option value)
      (f : pdf_file) (m : model) (e : exn) :
  run m (extract_resume json_loads f) = Raise e ->
  String.length (extract_text_from_pdf f) < 30
  /\ e = Exn ValueError "Could not extract text from resume".
Proof.
  destruct (Nat.lt_ge_cases (String.length (extract_text_from_pdf f)) 30)
    as [Hlt|Hge].
  - rewrite (extract_resume_rejects json_loads f Hlt).
    intros H. injection H as <-. auto.
  - rewrite (extract_resume_accepts json_loads f m Hge). discriminate.
Qed.

(** X15 -- [extract_resume] returns only dicts whose name is truthy:
    either the model's dict, accepted because its name is, or the
    fallback's, whose name is "Unknown" or a non-empty line.  It
    returns exactly when at least 30 characters were extracted, raises
    nothing but the extraction error, and calls the model at most
    once. *)
Theorem extract_resume_outcomes :
  forall (json_loads : string -> option value) (f : pdf_file) (m : model),
    let text := extract_text_from_pdf f in
    (forall v, run m (extract_resume json_loads f) = Ok v ->
               30 <= String.length text
               /\ exists d, v = VDict d /\ truthy (dict_get "name" d) = true)
    /\ (forall e, run m (extract_resume json_loads f) = Raise e ->
                  String.length text < 30
                  /\ e = Exn ValueError "Could not extract text from resume")
    /\ model_calls m (extract_resume json_loads f)
       = if (String.length text <? 30)%nat then 0 else 1.
Proof.
  intros json_loads f m text.
  split; [intros v; apply extract_resume_returns|].
  split; [intros e; apply extract_resume_raises|].
  destruct (String.length text <? 30)%nat eqn:Hlen.
  - apply Nat.ltb_lt in Hlen.
    now rewrite (extract_resume_rejects json_loads f Hlen).
  - unfold extract_resume. fold text. rewrite Hlen.
    apply Nat.ltb_ge in Hlen.
    assert (Hne : nonempty text = true).
    { destruct text; [simpl in Hlen; lia | reflexivity]. }
    rewrite Hne. cbn [negb orb]. cbv iota.
    rewrite model_calls_bind, run_generate. simpl.
    destruct (extract_json json_loads _); try reflexivity.
    destruct (truthy _); reflexivity.
Qed.

Lemma extract_resume_outcomes_witness :
  30 <= String.length (extract_text_from_pdf (BytesIO (one_page_pdf sample_resume_text)))
  /\ exists d,
       extract_resume_basic sample_resume_text = VDict d
       /\ truthy (dict_get "name" d) = true.
Proof.
  apply (proj1 (extract_resume_outcomes JsonRef.loads
                  (BytesIO (one_page_pdf sample_resume_text))
                  (constant_model "Sorry, I cannot help."))).
  vm_compute. reflexivity.
Defined.

(** X16 -- [/upload_resume] never raises.  It answers 200 exactly when
    at least 30 characters of text were extracted, and then with a
    resume object whose name is truthy; otherwise it answers 500. *)
Theorem upload_resume_outcomes :
  forall (json_loads : string -> option value) (file : pdf_bytes) (m : model),
    let text := extract_text_from_pdf (BytesIO file) in
    exists response,
      run m (upload_resume json_loads file) = Ok response
      /\ (status_code response = 200%Z <-> 30 <= String.length text)
      /\ (status_code response = 500%Z <-> String.length text < 30)
      /\ (status_code response = 200%Z ->
          exists d, content response = VDict [("resume", VDict d)]
                    /\ truthy (dict_get "name" d) = true).
Proof.
  intros json_loads file m text.
  pose proof (extract_resume_returns json_loads (BytesIO file) m) as Hok.
  pose proof (extract_resume_raises json_loads (BytesIO file) m) as Hraise.
  fold text in Hok, Hraise.
  unfold upload_resume. rewrite run_catch, run_bind.
  destruct (run m (extract_resume json_loads (BytesIO file))) as [v|e] eqn:E.
  - destruct (Hok v eq_refl) as (Hlen & d & -> & Hname).
    eexists. split; [reflexivity|]. simpl.
    repeat split; auto; try lia; try discriminate.
    intros _. eauto.
  - destruct (Hraise e eq_refl) as (Hlen & ->).
    eexists. split; [reflexivity|]. simpl.
    repeat split; auto; try lia; try discriminate.
Qed.

Lemma length_take (n : nat) (s : string) :
  String.length (take n s) = Nat.min n (String.length s).
Proof.
  revert s; induction n as [|n IH]; intros s; [reflexivity|].
  destruct s as [|c s]; simpl; [reflexivity | now rewrite IH].
Qed.

Lemma take_take (n : nat) (s : string) : take n (take n s) = take n s.
Proof.
  revert s; induction n as [|n IH]; intros s; [reflexivity|].
  destruct s as [|c s]; simpl; [reflexivity | now rewrite IH].
Qed.

(** X17 -- The prompt of [extract_resume] holds at most the first 2000
    characters of the resume text: its length is 161 plus the smaller
    of 2000 and the length of the text, and a text and its first 2000
    characters give the same prompt. *)
Theorem resume_prompt_is_bounded :
  forall text : string,
    String.length (resume_prompt text)
    = 161 + Nat.min 2000 (String.length text)
    /\ String.length (resume_prompt text) <= 2161
    /\ resume_prompt (take 2000 text) = resume_prompt text.
Proof.
  intros text.
  assert (E : String.length (resume_prompt text)
              = 161 + Nat.min 2000 (String.length text)).
  { unfold resume_prompt, unlines.
    repeat rewrite StrFacts.length_app. rewrite length_take.
    generalize (Nat.min 2000 (String.length text)). intros n. simpl. lia. }
  split; [exact E|]. split; [lia|].
  unfold resume_prompt. now rewrite take_take.
Qed.

(** ** extract_resume_basic: the shape of what it returns *)

Lemma m_seq_nil_inv (prev : option ascii) (w rest : string) :
  Re.m_seq [] prev w rest -> w = "".
Proof. intros H. now inversion H. Qed.

Lemma m_seq_cons_inv (a : Re.atom) (r : Re.regex) (prev : option ascii)
      (w rest : string) :
  Re.m_seq (a :: r) prev w rest ->
  exists w1 w2, w = w1 ++ w2 /\ Re.m_atom a prev w1 (w2 ++ rest)
                /\ Re.m_seq r (Re.last_char prev w1) w2 rest.
Proof. intros H. inversion H; subst. eauto. Qed.

Lemma m_atom_chr_inv (c : Re.cls) (prev : option ascii) (w rest : string) :
  Re.m_atom (Re.Chr c) prev w rest -> exists x, w = String x "" /\ c x = true.
Proof. intros H. inversion H; subst. eauto. Qed.

Lemma m_atom_rep_inv (g : bool) (n : nat) (c : Re.cls) (prev : option ascii)
      (w rest : string) :
  Re.m_atom (Re.Rep g n c) prev w rest ->
  n <= String.length w /\ Re.all_in c w = true.
Proof. intros H. inversion H; subst. auto. Qed.

Lemma m_atom_opt_inv (c : Re.cls) (prev : option ascii) (w rest : string) :
  Re.m_atom (Re.Opt c) prev w rest ->
  w = "" \/ exists x, w = String x "" /\ c x = true.
Proof. intros H. inversion H; subst; eauto. Qed.

Lemma m_atom_wordb_inv (prev : option ascii) (w rest : string) :
  Re.m_atom Re.WordB prev w rest -> w = "".
Proof. intros H. now inversion H. Qed.

Lemma match_at_substring (r : Re.regex) (text pre w : string) :
  Re.match_at r text pre w -> substring_of w text.
Proof. intros (post & -> & _). now exists pre, post. Qed.

(** What a match of the phone pattern looks like. *)
Lemma phone_match_shape (prev : option ascii) (w rest : string) :
  Re.m_seq Re.phone_re prev w rest ->
  exists c tl,
    w = String c tl
    /\ (c = "+"%char \/ c = "("%char \/ isdigit09 c = true)
    /\ Re.all_in Re.phone_cls tl = true
    /\ 8 <= String.length tl.
Proof.
  intros H. unfold Re.phone_re in H.
  apply m_seq_cons_inv in H. destruct H as (w1 & r1 & -> & H1 & H).
  apply m_seq_cons_inv in H. destruct H as (w2 & r2 & -> & H2 & H).
  apply m_seq_cons_inv in H. destruct H as (w3 & r3 & -> & H3 & H).
  apply m_seq_nil_inv in H. subst r3.
  apply m_atom_chr_inv in H2. destruct H2 as (y & -> & Hy).
  apply m_atom_rep_inv in H3. destruct H3 as [Hlen Hall].
  rewrite StrFacts.app_nil_r.
  apply m_atom_opt_inv in H1. destruct H1 as [->|(x & -> & Hx)].
  - exists y, w3. simpl. auto.
  - exists x, (String y w3). simpl. split; [reflexivity|]. split.
    + unfold Re.either, Re.lit in Hx. apply orb_true_iff in Hx.
      destruct Hx as [Hx|Hx]; apply Ascii.eqb_eq in Hx; auto.
    + split; [|lia]. rewrite Hall.
      unfold Re.phone_cls at 1, Re.either at 1. now rewrite Hy.
Qed.

(** What a match of the email pattern looks like. *)
Lemma email_match_shape (prev : option ascii) (w rest : string) :
  Re.m_seq Re.email_re prev w rest ->
  exists user domain tld,
    w = user ++ "@" ++ domain ++ "." ++ tld
    /\ user <> "" /\ domain <> "" /\ tld <> ""
    /\ Re.all_in Re.addr_cls user = true
    /\ Re.all_in Re.addr_cls domain = true
    /\ Re.all_in isword tld = true.
Proof.
  intros H. unfold Re.email_re in H.
  apply m_seq_cons_inv in H. destruct H as (b1 & r1 & -> & Hb1 & H).
  apply m_seq_cons_inv in H. destruct H as (u & r2 & -> & Hu & H).
  apply m_seq_cons_inv in H. destruct H as (at1 & r3 & -> & Hat & H).
  apply m_seq_cons_inv in H. destruct H as (d & r4 & -> & Hd & H).
  apply m_seq_cons_inv in H. destruct H as (dot & r5 & -> & Hdot & H).
  apply m_seq_cons_inv in H. destruct H as (t & r6 & -> & Ht & H).
  apply m_seq_cons_inv in H. destruct H as (b2 & r7 & -> & Hb2 & H).
  apply m_seq_nil_inv in H. subst r7.
  apply m_atom_wordb_inv in Hb1, Hb2. subst b1 b2.
  apply m_atom_chr_inv in Hat. destruct Hat as (x & -> & Hx).
  apply m_atom_chr_inv in Hdot. destruct Hdot as (y & -> & Hy).
  apply Ascii.eqb_eq in Hx, Hy. subst x y.
  apply m_atom_rep_inv in Hu, Hd, Ht.
  destruct Hu as [Lu Au], Hd as [Ld Ad], Ht as [Lt At].
  exists u, d, t. simpl. rewrite StrFacts.app_nil_r.
  repeat split; auto; intros ->; simpl in *; lia.
Qed.

(** X18 -- The fallback leaves the email field empty when the text
    holds no match of the email pattern, and the phone field empty when
    it holds no match of the phone pattern. *)
Theorem fallback_without_matches :
  forall text : string,
    (~ Re.has_match Re.email_re text ->
     field "email" (extract_resume_basic text) = VStr "")
    /\ (~ Re.has_match Re.phone_re text ->
        field "phone" (extract_resume_basic text) = VStr "").
Proof.
  intros text. rewrite extract_resume_basic_eq. split; intros H.
  - destruct (Re.search Re.email_re text) as [f|] eqn:E; [|reflexivity].
    exfalso. apply H. eapply search_has_match; eauto.
  - destruct (Re.search Re.phone_re text) as [f|] eqn:E; [|reflexivity].
    exfalso. apply H. eapply search_has_match; eauto.
Qed.

Lemma fallback_without_matches_witness :
  field "email" (extract_resume_basic "Jane Doe, engineer. Call me.") = VStr "".
Proof.
  apply (proj1 (fallback_without_matches "Jane Doe, engineer. Call me.")).
  intros H. apply ReFacts.search_some in H. destruct H as [f H].
  vm_compute in H. discriminate.
Defined.

(** X19 -- A phone the fallback reports is a piece of the text of at
    least nine characters: a plus sign, an opening parenthesis or a
    digit, followed by at least eight digits, blanks, hyphens or
    parentheses. *)
Theorem fallback_phone_shape :
  forall text phone : string,
    field "phone" (extract_resume_basic text) = VStr phone ->
    phone <> "" ->
    substring_of phone text
    /\ exists c tl,
         phone = String c tl
         /\ (c = "+"%char \/ c = "("%char \/ isdigit09 c = true)
         /\ Re.all_in Re.phone_cls tl = true
         /\ 8 <= String.length tl.
Proof.
  intros text phone H Hne. rewrite extract_resume_basic_eq in H.
  unfold field, dict_get in H. simpl in H.
  destruct (Re.search Re.phone_re text) as [f|] eqn:E; [|congruence].
  injection H as <-. apply ReFacts.search_leftmost in E. destruct E as [E _].
  split; [eapply match_at_substring; eauto|].
  destruct E as (post & _ & Hm). eapply phone_match_shape; eauto.
Qed.

Lemma fallback_phone_shape_witness :
  substring_of "+1 (555) 123-4567" sample_resume_text
  /\ exists c tl,
       "+1 (555) 123-4567" = String c tl
       /\ (c = "+"%char \/ c = "("%char \/ isdigit09 c = true)
       /\ Re.all_in Re.phone_cls tl = true
       /\ 8 <= String.length tl.
Proof.
  apply (fallback_phone_shape sample_resume_text "+1 (555) 123-4567").
  - vm_compute. reflexivity.
  - discriminate.
Defined.

(** X20 -- An email the fallback reports is a piece of the text of the
    form user, at sign, domain, dot, ending, where user and domain are
    non-empty runs of word characters, dots and hyphens and the ending
    is a non-empty run of word characters. *)
Theorem fallback_email_shape :
  forall text email : string,
    field "email" (extract_resume_basic text) = VStr email ->
    email <> "" ->
    substring_of email text
    /\ exists user domain tld,
         email = user ++ "@" ++ domain ++ "." ++ tld
         /\ user <> "" /\ domain <> "" /\ tld <> ""
         /\ Re.all_in Re.addr_cls user = true
         /\ Re.all_in Re.addr_cls domain = true
         /\ Re.all_in isword tld = true.
Proof.
  intros text email H Hne. rewrite extract_resume_basic_eq in H.
  unfold field, dict_get in H. simpl in H.
  destruct (Re.search Re.email_re text) as [f|] eqn:E; [|congruence].
  injection H as <-. apply ReFacts.search_leftmost in E. destruct E as [E _].
  split; [eapply match_at_substring; eauto|].
  destruct E as (post & _ & Hm). eapply email_match_shape; eauto.
Qed.

Lemma fallback_email_shape_witness :
  substring_of "jane.doe@example.com" sample_resume_text
  /\ exists user domain tld,
       "jane.doe@example.com" = user ++ "@" ++ domain ++ "." ++ tld
       /\ user <> "" /\ domain <> "" /\ tld <> ""
       /\ Re.all_in Re.addr_cls user = true
       /\ Re.all_in Re.addr_cls domain = true
       /\ Re.all_in isword tld = true.
Proof.
  apply (fallback_email_shape sample_resume_text "jane.doe@example.com").
  - vm_compute. reflexivity.
  - discriminate.
Defined.

(** X21 -- The fallback always returns the same six fields, in the
    same order; experience and projects are always empty; the name is
    "Unknown" or one of the non-empty stripped lines of the text, of at
    most four words and without white space at its ends; and the skills
    are at most ten, each the title-cased form of a listed keyword. *)
Theorem fallback_shape :
  forall text : string,
    exists name email phone skills,
      extract_resume_basic text
      = VDict [("name", VStr name); ("email", VStr email); ("phone", VStr phone);
               ("skills", VList (map VStr skills));
               ("experience", VList []); ("projects", VList [])]
      /\ (name = "Unknown"
          \/ (In name (stripped_lines text) /\ nonempty name = true
              /\ trimmed name /\ word_count name <= 4))
      /\ List.length skills <= 10
      /\ (forall s, In s skills -> exists keyword,
                                     In keyword skills_list /\ s = title keyword).
Proof.
  intros text. rewrite extract_resume_basic_eq.
  eexists _, _, _, (found_skills text). split; [reflexivity|]. split; [|split].
  - destruct (name_line text) as [line|] eqn:E; [right | now left].
    destruct (name_line_nonempty _ _ E) as (Hn & Ht & Hw).
    repeat split; auto; try apply Ht.
    unfold name_line in E. apply find_some in E.
    destruct E as [E _]. now apply in_firstn in E.
  - unfold found_skills. rewrite length_map.
    etransitivity; [apply filter_length_le | reflexivity].
  - intros s Hs. unfold found_skills in Hs. apply in_map_iff in Hs.
    destruct Hs as (keyword & <- & Hk). apply filter_In in Hk.
    exists keyword. tauto.
Qed.

Lemma found_skills_in (text keyword : string) :
  In keyword skills_list ->
  contains keyword (lower text) = true ->
  In (title keyword) (found_skills text).
Proof.
  intros Hk Hc. unfold found_skills. apply in_map. apply filter_In. auto.
Qed.

(** X22 -- Keywords are found as substrings, so the fallback reports
    "Java" whenever it reports "Javascript". *)
Theorem fallback_javascript_implies_java :
  forall (text : string) (skills : list value),
    field "skills" (extract_resume_basic text) = VList skills ->
    In (VStr "Javascript") skills ->
    In (VStr "Java") skills.
Proof.
  intros text skills H Hjs. rewrite extract_resume_basic_eq in H.
  unfold field, dict_get in H. simpl in H. injection H as <-.
  apply in_map_iff in Hjs. destruct Hjs as (s & Hs & Hin). injection Hs as ->.
  unfold found_skills in Hin. apply in_map_iff in Hin.
  destruct Hin as (keyword & Ht & Hk). apply filter_In in Hk.
  destruct Hk as [Hk Hc].
  assert (keyword = "javascript").
  { simpl in Hk.
    repeat (destruct Hk as [<-|Hk]; [try reflexivity; discriminate|]).
    contradiction. }
  subst keyword. apply in_map. change "Java" with (title "java").
  apply found_skills_in; [simpl; auto|].
  apply StripFacts.contains_substring.
  apply StripFacts.contains_substring in Hc.
  eapply StripFacts.substring_of_trans; [|exact Hc].
  exists "", "script". reflexivity.
Qed.

Lemma fallback_javascript_implies_java_witness :
  In (VStr "Java") [VStr "Java"; VStr "Javascript"].
Proof.
  apply (fallback_javascript_implies_java "I write JavaScript daily."
           [VStr "Java"; VStr "Javascript"]).
  - vm_compute. reflexivity.
  - simpl. auto.
Defined.

(** ** final_report: faulty records, order, and NaN *)

Lemma sum_total_scores_app (acc : value) (xs ys : list value) :
  sum_total_scores acc (xs ++ ys)%list
  = rbind (sum_total_scores acc xs) (fun a => sum_total_scores a ys).
Proof.
  revert acc; induction xs as [|x xs IH]; intros acc; simpl; [reflexivity|].
  destruct (total_score_of x) as [v|e]; simpl; [|reflexivity].
  destruct (add_number acc v) as [a|e]; simpl; [apply IH | reflexivity].
Qed.

Lemma final_report_sum_raises (evaluations : list value) (e : exn) :
  sum_total_scores (VInt 0) evaluations = Raise e ->
  final_report evaluations = Raise e.
Proof.
  intros H. unfold final_report.
  destruct evaluations as [|x xs]; [discriminate|]. now rewrite H.
Qed.

(** X23 -- After any number of records with integer scores, a record
    without a total_score field makes [final_report] raise [KeyError],
    and an item that is no record makes it raise [TypeError], whatever
    follows in the list: no partial report is returned. *)
Theorem final_report_faulty_item :
  forall (scores : list Z) (item : value) (rest : list value),
    (forall d, item = VDict d -> dict_find "total_score" d = None ->
               final_report (records scores ++ item :: rest)%list
               = Raise (Exn KeyError "'total_score'"))
    /\ (~ is_dict item ->
        exists e, final_report (records scores ++ item :: rest)%list = Raise e
                  /\ exn_class e = TypeError).
Proof.
  intros scores item rest. split.
  - intros d -> Hd. apply final_report_sum_raises.
    rewrite sum_total_scores_app, sum_records. simpl. now rewrite Hd.
  - intros Hn.
    assert (H : exists e, total_score_of item = Raise e /\ exn_class e = TypeError).
    { destruct item; simpl; try (eexists; split; reflexivity).
      exfalso. apply Hn. exact I. }
    destruct H as (e & He & Hc). exists e. split; [|exact Hc].
    apply final_report_sum_raises.
    rewrite sum_total_scores_app, sum_records. simpl. now rewrite He.
Qed.

Lemma final_report_faulty_item_witness :
  final_report (records [90; 75]%Z
                ++ VDict [("feedback", VStr "good")] :: records [60]%Z)%list
  = Raise (Exn KeyError "'total_score'").
Proof.
  apply (proj1 (final_report_faulty_item [90; 75]%Z
                  (VDict [("feedback", VStr "good")]) (records [60]%Z))
           [("feedback", VStr "good")]); reflexivity.
Defined.

Lemma final_report_records (scores : list Z) :
  scores <> [] ->
  final_report (records scores)
  = rbind (truediv (VInt (total scores)) (Z.of_nat (List.length scores)))
          (fun avg => Ok (report (PyFloat.round_ndigits avg 2)
                                 (performance_level avg) (List.length scores))).
Proof.
  intros Hne. unfold final_report.
  destruct scores as [|n scores]; [congruence|].
  change (records (n :: scores))
    with (VDict [("total_score", VInt n)] :: records scores).
  change (VDict [("total_score", VInt n)] :: records scores)
    with (records (n :: scores)).
  destruct (records (n :: scores)) as [|x xs] eqn:E; [discriminate|].
  rewrite <- E. rewrite (sum_records (n :: scores) 0), length_records.
  reflexivity.
Qed.

Lemma total_permutation (xs ys : list Z) :
  Permutation xs ys -> total xs = total ys.
Proof.
  induction 1; simpl; lia.
Qed.

(** X24 -- For records with integer scores the report does not depend
    on the order of the records: two lists with the same scores in any
    order get the same report, or raise alike. *)
Theorem final_report_order_irrelevant :
  forall scores scores' : list Z,
    Permutation scores scores' ->
    final_report (records scores) = final_report (records scores').
Proof.
  intros scores scores' H.
  destruct scores as [|n scores].
  - apply Permutation_nil in H. now subst.
  - assert (Hne' : scores' <> []).
    { intros ->. apply Permutation_sym, Permutation_nil in H. discriminate. }
    rewrite (final_report_records (n :: scores)) by discriminate.
    rewrite (final_report_records scores') by assumption.
    now rewrite (total_permutation _ _ H), (Permutation_length H).
Qed.

Lemma final_report_order_irrelevant_witness :
  final_report (records [90; 60; 75]%Z) = final_report (records [60; 75; 90]%Z).
Proof.
  apply final_report_order_irrelevant.
  apply Permutation_cons_app with (l1 := [60; 75]%Z) (l2 := []). reflexivity.
Defined.

(** X25 -- A mean that is not a number is reported as it is, with the
    level "Average": a NaN passes both threshold tests as false. *)
Theorem final_report_nan :
  forall (evaluations : list value) (S : value),
    evaluations <> [] ->
    sum_total_scores (VInt 0) evaluations = Ok S ->
    truediv S (Z.of_nat (List.length evaluations)) = Ok S754_nan ->
    final_report evaluations
    = Ok (report S754_nan "Average" (List.length evaluations)).
Proof.
  intros evaluations S Hne HS Havg.
  now rewrite (final_report_nonempty evaluations S S754_nan Hne HS Havg).
Qed.

Lemma final_report_nan_witness :
  final_report [VDict [("total_score", VFloat S754_nan)]]
  = Ok (report S754_nan "Average" 1).
Proof.
  apply (final_report_nan [VDict [("total_score", VFloat S754_nan)]]
           (VFloat S754_nan)).
  - discriminate.
  - reflexivity.
  - reflexivity.
Defined.

(** X26 -- On a non-empty list of records with integer scores
    [final_report] either returns a report with the three fields or
    raises [OverflowError] because the mean is too large for a float;
    it raises nothing else. *)
Theorem final_report_integer_scores :
  forall scores : list Z,
    scores <> [] ->
    (exists avg,
        final_report (records scores)
        = Ok (report (PyFloat.round_ndigits avg 2) (performance_level avg)
                     (List.length scores)))
    \/ final_report (records scores)
       = Raise (Exn OverflowError "integer division result too large for a float").
Proof.
  intros scores Hne. rewrite (final_report_records scores Hne).
  unfold truediv.
  assert (Hn : (Z.of_nat (List.length scores) =? 0)%Z = false).
  { apply Z.eqb_neq. destruct scores; [congruence | simpl; lia]. }
  rewrite Hn.
  destruct (PyFloat.is_inf _); [right; reflexivity | left; eexists; reflexivity].
Qed.

Lemma final_report_integer_scores_witness :
  (exists avg,
      final_report (records [10 ^ 400]%Z)
      = Ok (report (PyFloat.round_ndigits avg 2) (performance_level avg) 1))
  \/ final_report (records [10 ^ 400]%Z)
     = Raise (Exn OverflowError "integer division result too large for a float").
Proof.
  apply (final_report_integer_scores [10 ^ 400]%Z). discriminate.
Defined.

(* ================================================================== *)
(** * The fallback, on the lines of the text and on the longest matches *)

(** ** A greedy repetition takes the longest run that lets the rest match *)

Module GreedyFacts.

Import Re StrFacts ReFacts.









End GreedyFacts.

(** ** The two patterns pick the longest match *)

Module PatternFacts.

Import Re StrFacts ReFacts GreedyFacts.





End PatternFacts.

(** ** The lines of a text *)

Module LineFacts.

Import StrFacts.








End LineFacts.



(** The name of the four sample lines is the third line, stripped: the
    first holds only blanks and the second has six words. *)
Example name_of_sample_lines :
  field "name"
    (extract_resume_basic
       (join_lines ["  "; "Curriculum vitae of a senior engineer"; " Jane Doe ";
                    "jane.doe@example.com"]))
  = VStr "Jane Doe".
Proof. vm_compute. reflexivity. Qed.
